(** * ConditionEvaluator: a shallow embedding and its properties

    The development follows the summary-widget condition evaluator
    (the AMD module defining [ConditionEvaluator]).  The JavaScript
    values that can flow through the evaluator are embedded first
    (module [JS]), then the operation registry, [executeCondition],
    [execute] and the accessors, and finally the properties.

    Conventions of the embedding:
    - a JavaScript number is an IEEE-754 binary64 datum, represented by
      the Standard Library's [spec_float] with precision 53 and maximal
      exponent 1024; comparisons are [SFltb], [SFleb] and [SFeqb];
    - a string is a sequence of code units below 256;
    - cached values and comparison operands are primitives (undefined,
      null, booleans, numbers, strings);
    - an object used as a dictionary (the caches) is a finite map of its
      own properties; the entity set is the list [Object.keys] returns;
    - a call either returns a value or throws: [Completion]. *)

From Stdlib Require Import ZArith String Ascii List Bool Lia DecimalString.
From Stdlib Require Import Floats.SpecFloat.
From stdpp Require Import gmap strings.

Import ListNotations.
Local Open Scope string_scope.
Local Open Scope Z_scope.

(** ** JavaScript values and the built-ins the evaluator calls *)

Module JS.

Definition prec : Z := 53.
Definition emax : Z := 1024.

Inductive Value : Type :=
| VUndefined
| VNull
| VBool (b : bool)
| VNum (n : spec_float)
| VStr (s : string).

Inductive Error : Type :=
| TypeError
| MalformedCondition.

(** The outcome of a call: a normal return or a thrown error. *)
Inductive Completion (A : Type) : Type :=
| Return (a : A)
| Throw (e : Error).
Arguments Return {A} a.
Arguments Throw {A} e.

Definition bind {A B} (c : Completion A) (k : A -> Completion B) : Completion B :=
  match c with
  | Return a => k a
  | Throw e => Throw e
  end.

(** [try { k' := body } catch (e) { }]: on a throw the handler does nothing
    and the variables keep the value they had. *)
Definition try_catch {A} (body : Completion A) (unchanged : A) : A :=
  match body with
  | Return a => a
  | Throw _ => unchanged
  end.

(** Number literals. *)
Definition NaN : spec_float := S754_nan.
Definition Infinity : spec_float := S754_infinity false.
Definition num_of_Z (z : Z) : spec_float := binary_normalize prec emax z 0 false.

Definition is_nan (x : spec_float) : bool :=
  match x with
  | S754_nan => true
  | _ => false
  end.

Definition is_finite (x : spec_float) : bool :=
  match x with
  | S754_zero _ | S754_finite _ _ _ => true
  | _ => false
  end.

(** *** StringToNumber *)

Definition is_StrWhiteSpaceChar (c : ascii) : bool :=
  let n := nat_of_ascii c in
  ((9 <=? n)%nat && (n <=? 13)%nat) || (n =? 32)%nat || (n =? 160)%nat.

Fixpoint trim_start (s : list ascii) : list ascii :=
  match s with
  | c :: s' => if is_StrWhiteSpaceChar c then trim_start s' else s
  | [] => []
  end.

Definition trim (s : list ascii) : list ascii :=
  rev (trim_start (rev (trim_start s))).

(** The value of a digit in a radix up to 16, if the code unit is one. *)
Definition digit_value (radix : Z) (c : ascii) : option Z :=
  let n := Z.of_nat (nat_of_ascii c) in
  let v :=
    if (48 <=? n) && (n <=? 57) then Some (n - 48)
    else if (97 <=? n) && (n <=? 102) then Some (n - 87)
    else if (65 <=? n) && (n <=? 70) then Some (n - 55)
    else None in
  match v with
  | Some d => if d <? radix then Some d else None
  | None => None
  end.

(** Longest prefix of digits, read as a number, its length, and the rest. *)
Fixpoint span_digits (radix : Z) (acc : Z) (len : Z) (s : list ascii)
  : Z * Z * list ascii :=
  match s with
  | c :: s' =>
      match digit_value radix c with
      | Some d => span_digits radix (acc * radix + d) (len + 1) s'
      | None => (acc, len, s)
      end
  | [] => (acc, len, [])
  end.

(** The whole of [s] as digits (at least one) in the radix. *)
Definition all_digits (radix : Z) (s : list ascii) : option Z :=
  match span_digits radix 0 0 s with
  | (v, len, []) => if 0 <? len then Some v else None
  | _ => None
  end.

(** ExponentPart, or nothing, up to the end of the text. *)
Definition parse_exponent (s : list ascii) : option Z :=
  match s with
  | [] => Some 0
  | c :: s' =>
      if (Ascii.eqb c "e" || Ascii.eqb c "E")%char then
        match s' with
        | "+"%char :: ds => all_digits 10 ds
        | "-"%char :: ds => option_map Z.opp (all_digits 10 ds)
        | ds => all_digits 10 ds
        end
      else None
  end.

(** StrUnsignedDecimalLiteral other than Infinity, as mantissa and decimal
    exponent. *)
Definition parse_unsigned_decimal (s : list ascii) : option (Z * Z) :=
  let '(ip, ilen, r1) := span_digits 10 0 0 s in
  match r1 with
  | "."%char :: r2 =>
      let '(m, flen, r3) := span_digits 10 ip 0 r2 in
      if (ilen =? 0) && (flen =? 0) then None
      else option_map (fun e => (m, e - flen)) (parse_exponent r3)
  | _ =>
      if ilen =? 0 then None
      else option_map (fun e => (ip, e)) (parse_exponent r1)
  end.

(** The binary64 nearest to [m * 10^e] (ties to even), with the given sign. *)
Definition decimal_to_number (neg : bool) (m e : Z) : spec_float :=
  if m =? 0 then S754_zero neg
  else
    let signed z := if neg then - z else z in
    if 0 <=? e then binary_normalize prec emax (signed (m * 10 ^ e)) 0 false
    else
      let d := 10 ^ (- e) in
      let k := Z.max 0 (Z.log2 d - Z.log2 m + 66) in
      let q := (m * 2 ^ k) / d in
      let sticky := if (m * 2 ^ k) mod d =? 0 then 0 else 1 in
      binary_normalize prec emax (signed (2 * q + sticky)) (- (k + 1)) false.

Definition parse_StrUnsignedDecimalLiteral (neg : bool) (s : list ascii) : spec_float :=
  if String.eqb (string_of_list_ascii s) "Infinity" then S754_infinity neg
  else
    match parse_unsigned_decimal s with
    | Some (m, e) => decimal_to_number neg m e
    | None => NaN
    end.

Definition parse_NonDecimalIntegerLiteral (radix : Z) (ds : list ascii) : spec_float :=
  match all_digits radix ds with
  | Some v => num_of_Z v
  | None => NaN
  end.

Definition StringToNumber (str : string) : spec_float :=
  match trim (list_ascii_of_string str) with
  | [] => S754_zero false
  | "+"%char :: s => parse_StrUnsignedDecimalLiteral false s
  | "-"%char :: s => parse_StrUnsignedDecimalLiteral true s
  | "0"%char :: p :: ds =>
      if (Ascii.eqb p "x" || Ascii.eqb p "X")%char then parse_NonDecimalIntegerLiteral 16 ds
      else if (Ascii.eqb p "o" || Ascii.eqb p "O")%char then parse_NonDecimalIntegerLiteral 8 ds
      else if (Ascii.eqb p "b" || Ascii.eqb p "B")%char then parse_NonDecimalIntegerLiteral 2 ds
      else parse_StrUnsignedDecimalLiteral false ("0"%char :: p :: ds)
  | s => parse_StrUnsignedDecimalLiteral false s
  end.

(** *** Number::toString (radix 10) and ToString *)

Definition decimal_of_Z (z : Z) : string :=
  NilZero.string_of_uint (N.to_uint (Z.to_N z)).

Fixpoint zeros (n : nat) : string :=
  match n with
  | O => ""
  | S n' => String "0" (zeros n')
  end.

(** [num/den] compared with [10^j]. *)
Definition compare_pow10 (num den j : Z) : comparison :=
  if 0 <=? j then num ?= den * 10 ^ j else num * 10 ^ (- j) ?= den.

(** The [n] with [10^(n-1) <= num/den < 10^n]. *)
Definition decimal_magnitude (num den : Z) : Z :=
  let est := ((Z.log2 num - Z.log2 den) * 30103) / 100000 in
  let fits n :=
    match compare_pow10 num den (n - 1), compare_pow10 num den n with
    | (Eq | Gt), Lt => true
    | _, _ => false
    end in
  match find fits [est - 1; est; est + 1; est + 2; est + 3] with
  | Some n => n
  | None => est
  end.

(** The integer part of [num/den / 10^j]. *)
Definition floor_scaled (num den j : Z) : Z :=
  if 0 <=? j then num / (den * 10 ^ j) else (num * 10 ^ (- j)) / den.

(** The two [k]-digit candidates around [num/den], as (s, n); among those
    that read back as [x] the closer one is preferred, the even one on a
    tie. *)
Definition shortest_candidate (x : spec_float) (num den n k : Z) : option (Z * Z) :=
  let j := n - k in
  let '(P, Q) := if 0 <=? j then (10 ^ j, 1) else (1, 10 ^ (- j)) in
  let lo := floor_scaled num den j in
  let hi := lo + 1 in
  let reads_back s := SFeqb (decimal_to_number false s j) x in
  let err s := Z.abs (s * P * den - num * Q) in
  let norm s := if s =? 10 ^ k then (10 ^ (k - 1), n + 1) else (s, n) in
  match reads_back lo, reads_back hi with
  | true, true =>
      match err lo ?= err hi with
      | Lt => Some (norm lo)
      | Gt => Some (norm hi)
      | Eq => Some (norm (if Z.even lo then lo else hi))
      end
  | true, false => Some (norm lo)
  | false, true => Some (norm hi)
  | false, false => None
  end.

Fixpoint shortest_digits (fuel : nat) (x : spec_float) (num den n k : Z) : Z * Z * Z :=
  match fuel with
  | O => (floor_scaled num den (n - k), n, k)
  | S fuel' =>
      match shortest_candidate x num den n k with
      | Some (s, n') => (s, n', k)
      | None => shortest_digits fuel' x num den n (k + 1)
      end
  end.

Definition format_digits (s n k : Z) : string :=
  let ds := decimal_of_Z s in
  if (k <=? n) && (n <=? 21) then ds ++ zeros (Z.to_nat (n - k))
  else if (0 <? n) && (n <=? 21) then
    String.substring 0 (Z.to_nat n) ds ++ "." ++
    String.substring (Z.to_nat n) (Z.to_nat (k - n)) ds
  else if (-6 <? n) && (n <=? 0) then "0." ++ zeros (Z.to_nat (- n)) ++ ds
  else
    let e := n - 1 in
    let mant :=
      if k =? 1 then ds
      else String.substring 0 1 ds ++ "." ++ String.substring 1 (Z.to_nat (k - 1)) ds in
    mant ++ "e" ++ (if 0 <=? e then "+" else "-") ++ decimal_of_Z (Z.abs e).

Definition NumberToString (x : spec_float) : string :=
  match x with
  | S754_nan => "NaN"
  | S754_zero _ => "0"
  | S754_infinity neg => if neg then "-Infinity" else "Infinity"
  | S754_finite neg m e =>
      let '(num, den) := if 0 <=? e then (Zpos m * 2 ^ e, 1) else (Zpos m, 2 ^ (- e)) in
      let '(s, n, k) :=
        shortest_digits 17 (S754_finite false m e) num den (decimal_magnitude num den) 1 in
      (if neg then "-" else "") ++ format_digits s n k
  end.

Definition ToString (v : Value) : string :=
  match v with
  | VUndefined => "undefined"
  | VNull => "null"
  | VBool b => if b then "true" else "false"
  | VNum n => NumberToString n
  | VStr s => s
  end.

(** *** Conversions and operators *)

(** [Number(value)] *)
Definition Number (v : Value) : spec_float :=
  match v with
  | VUndefined => NaN
  | VNull => S754_zero false
  | VBool b => if b then num_of_Z 1 else S754_zero false
  | VNum n => n
  | VStr s => StringToNumber s
  end.

(** [isNaN(x)] for a number [x]. *)
Definition isNaN (x : spec_float) : bool := is_nan x.

Definition typeof (v : Value) : string :=
  match v with
  | VUndefined => "undefined"
  | VNull => "object"
  | VBool _ => "boolean"
  | VNum _ => "number"
  | VStr _ => "string"
  end.

(** ToBoolean *)
Definition truthy (v : Value) : bool :=
  match v with
  | VUndefined | VNull => false
  | VBool b => b
  | VNum (S754_zero _) | VNum S754_nan => false
  | VNum _ => true
  | VStr s => negb (String.eqb s "")
  end.

(** [a === b] *)
Definition strict_eq (a b : Value) : bool :=
  match a, b with
  | VUndefined, VUndefined => true
  | VNull, VNull => true
  | VBool x, VBool y => Bool.eqb x y
  | VNum x, VNum y => SFeqb x y
  | VStr x, VStr y => String.eqb x y
  | _, _ => false
  end.

(** [a < b]: code-unit order on two strings, numeric order otherwise. *)
Definition lt (a b : Value) : bool :=
  match a, b with
  | VStr x, VStr y => String.ltb x y
  | _, _ => SFltb (Number a) (Number b)
  end.

(** [a <= b] *)
Definition le (a b : Value) : bool :=
  match a, b with
  | VStr x, VStr y => String.leb x y
  | _, _ => SFleb (Number a) (Number b)
  end.

(** [a > b] and [a >= b] *)
Definition gt (a b : Value) : bool := lt b a.
Definition ge (a b : Value) : bool := le b a.

(** [input[i]]: reading past the end of an array yields undefined. *)
Definition index (input : list Value) (i : nat) : Value :=
  nth i input VUndefined.

(** String.prototype.includes, startsWith and endsWith (position 0). *)
Fixpoint includes (s t : string) : bool :=
  String.prefix t s ||
  match s with
  | EmptyString => false
  | String _ s' => includes s' t
  end.

Definition startsWith (s t : string) : bool := String.prefix t s.

Definition endsWith (s t : string) : bool :=
  let ls := String.length s in
  let lt := String.length t in
  (lt <=? ls)%nat && String.eqb (String.substring (ls - lt) lt s) t.

End JS.

Import JS.

(** ** The evaluator *)

(** An entry of the operation library. *)
Module Operation.
Record t : Type := {
  operation : list Value -> Completion Value;
  text : string;
  appliesTo : list string;
  inputCount : Z;
  getDescription : list Value -> string
}.
End Operation.

(** A condition object, as passed to [execute]. *)
Module Condition.
Record t : Type := {
  object : string;
  key : string;
  operation : string;
  values : list Value
}.
End Condition.

(** [a && b] and [a || b]; the right operand is evaluated only when the
    left one does not decide, and may throw. *)
Definition and_then (a : Value) (b : Completion Value) : Completion Value :=
  if truthy a then b else Return a.

Definition or_else (a : Value) (b : Completion Value) : Completion Value :=
  if truthy a then Return a else b.

(** [recv.includes(arg)] and the like: only strings have these methods. *)
Definition call_string_method (m : string -> string -> bool) (recv arg : Value)
  : Completion Value :=
  match recv with
  | VStr s => Return (VBool (m s (ToString arg)))
  | _ => Throw TypeError
  end.

Definition negate (c : Completion Value) : Completion Value :=
  bind c (fun v => Return (VBool (negb (truthy v)))).

Definition equalTo : Operation.t := {|
  Operation.operation input := Return (VBool (strict_eq (index input 0) (index input 1)));
  Operation.text := "is equal to";
  Operation.appliesTo := ["number"];
  Operation.inputCount := 1;
  Operation.getDescription values := " == " ++ ToString (index values 0)
|}.

Definition notEqualTo : Operation.t := {|
  Operation.operation input := Return (VBool (negb (strict_eq (index input 0) (index input 1))));
  Operation.text := "is not equal to";
  Operation.appliesTo := ["number"];
  Operation.inputCount := 1;
  Operation.getDescription values := " != " ++ ToString (index values 0)
|}.

Definition greaterThan : Operation.t := {|
  Operation.operation input := Return (VBool (gt (index input 0) (index input 1)));
  Operation.text := "is greater than";
  Operation.appliesTo := ["number"];
  Operation.inputCount := 1;
  Operation.getDescription values := " > " ++ ToString (index values 0)
|}.

Definition lessThan : Operation.t := {|
  Operation.operation input := Return (VBool (lt (index input 0) (index input 1)));
  Operation.text := "is less than";
  Operation.appliesTo := ["number"];
  Operation.inputCount := 1;
  Operation.getDescription values := " < " ++ ToString (index values 0)
|}.

Definition greaterThanOrEq : Operation.t := {|
  Operation.operation input := Return (VBool (ge (index input 0) (index input 1)));
  Operation.text := "is greater than or equal to";
  Operation.appliesTo := ["number"];
  Operation.inputCount := 1;
  Operation.getDescription values := " >= " ++ ToString (index values 0)
|}.

Definition lessThanOrEq : Operation.t := {|
  Operation.operation input := Return (VBool (le (index input 0) (index input 1)));
  Operation.text := "is less than or equal to";
  Operation.appliesTo := ["number"];
  Operation.inputCount := 1;
  Operation.getDescription values := " <= " ++ ToString (index values 0)
|}.

Definition between : Operation.t := {|
  Operation.operation input :=
    Return (VBool (gt (index input 0) (index input 1) && lt (index input 0) (index input 2)));
  Operation.text := "is between";
  Operation.appliesTo := ["number"];
  Operation.inputCount := 2;
  Operation.getDescription values :=
    " between " ++ ToString (index values 0) ++ " and " ++ ToString (index values 1)
|}.

Definition notBetween : Operation.t := {|
  Operation.operation input :=
    Return (VBool (lt (index input 0) (index input 1) || gt (index input 0) (index input 2)));
  Operation.text := "is not between";
  Operation.appliesTo := ["number"];
  Operation.inputCount := 2;
  Operation.getDescription values :=
    " not between " ++ ToString (index values 0) ++ " and " ++ ToString (index values 1)
|}.

Definition textContains : Operation.t := {|
  Operation.operation input :=
    bind (and_then (index input 0) (Return (index input 1))) (fun both =>
    and_then both (call_string_method includes (index input 0) (index input 1)));
  Operation.text := "text contains";
  Operation.appliesTo := ["string"];
  Operation.inputCount := 1;
  Operation.getDescription values := " contains " ++ ToString (index values 0)
|}.

Definition textDoesNotContain : Operation.t := {|
  Operation.operation input :=
    bind (and_then (index input 0) (Return (index input 1))) (fun both =>
    and_then both (negate (call_string_method includes (index input 0) (index input 1))));
  Operation.text := "text does not contain";
  Operation.appliesTo := ["string"];
  Operation.inputCount := 1;
  Operation.getDescription values := " does not contain " ++ ToString (index values 0)
|}.

Definition textStartsWith : Operation.t := {|
  Operation.operation input := call_string_method startsWith (index input 0) (index input 1);
  Operation.text := "text starts with";
  Operation.appliesTo := ["string"];
  Operation.inputCount := 1;
  Operation.getDescription values := " starts with " ++ ToString (index values 0)
|}.

Definition textEndsWith : Operation.t := {|
  Operation.operation input := call_string_method endsWith (index input 0) (index input 1);
  Operation.text := "text ends with";
  Operation.appliesTo := ["string"];
  Operation.inputCount := 1;
  Operation.getDescription values := " ends with " ++ ToString (index values 0)
|}.

Definition textIsExactly : Operation.t := {|
  Operation.operation input := Return (VBool (strict_eq (index input 0) (index input 1)));
  Operation.text := "text is exactly";
  Operation.appliesTo := ["string"];
  Operation.inputCount := 1;
  Operation.getDescription values := " is exactly " ++ ToString (index values 0)
|}.

Definition isUndefined : Operation.t := {|
  Operation.operation input := Return (VBool (String.eqb (typeof (index input 0)) "undefined"));
  Operation.text := "is undefined";
  Operation.appliesTo := ["string"; "number"; "enum"];
  Operation.inputCount := 0;
  Operation.getDescription _ := " is undefined"
|}.

Definition isDefined : Operation.t := {|
  Operation.operation input :=
    Return (VBool (negb (String.eqb (typeof (index input 0)) "undefined")));
  Operation.text := "is defined";
  Operation.appliesTo := ["string"; "number"; "enum"];
  Operation.inputCount := 0;
  Operation.getDescription _ := " is defined"
|}.

Definition enumValueIs : Operation.t := {|
  Operation.operation input := Return (VBool (strict_eq (index input 0) (index input 1)));
  Operation.text := "is";
  Operation.appliesTo := ["enum"];
  Operation.inputCount := 1;
  Operation.getDescription values := " == " ++ ToString (index values 0)
|}.

Definition enumValueIsNot : Operation.t := {|
  Operation.operation input := Return (VBool (negb (strict_eq (index input 0) (index input 1))));
  Operation.text := "is not";
  Operation.appliesTo := ["enum"];
  Operation.inputCount := 1;
  Operation.getDescription values := " != " ++ ToString (index values 0)
|}.

(** [this.operations], in the order the constructor lists its keys. *)
Definition operations : list (string * Operation.t) :=
  [ ("equalTo", equalTo); ("notEqualTo", notEqualTo);
    ("greaterThan", greaterThan); ("lessThan", lessThan);
    ("greaterThanOrEq", greaterThanOrEq); ("lessThanOrEq", lessThanOrEq);
    ("between", between); ("notBetween", notBetween);
    ("textContains", textContains); ("textDoesNotContain", textDoesNotContain);
    ("textStartsWith", textStartsWith); ("textEndsWith", textEndsWith);
    ("textIsExactly", textIsExactly);
    ("isUndefined", isUndefined); ("isDefined", isDefined);
    ("enumValueIs", enumValueIs); ("enumValueIsNot", enumValueIsNot) ].

(** Property read on an object literal given by its entries: [obj[k]]. *)
Definition get {A} (obj : list (string * A)) (k : string) : option A :=
  option_map snd (find (fun entry => String.eqb (fst entry) k) obj).

(** [this.inputTypes] *)
Definition inputTypes : list (string * string) :=
  [ ("number", "number"); ("string", "text"); ("enum", "select") ].

Definition validateNumberInput (input : list Value) : bool :=
  fold_left (fun valid value => valid && String.eqb (typeof value) "number") input true.

Definition validateStringInput (input : list Value) : bool :=
  fold_left (fun valid value => valid && String.eqb (typeof value) "string") input true.

(** [this.inputValidators] *)
Definition inputValidators : list (string * (list Value -> bool)) :=
  [ ("number", validateNumberInput); ("string", validateStringInput);
    ("enum", validateNumberInput) ].

(** The instance state.  [compositionObjs] is kept as its own keys, in the
    order [Object.keys] enumerates them; the operation library, the input
    types and the validators are the same for every instance. *)
Record ConditionEvaluator : Type := {
  subscriptionCache : gmap string (gmap string Value);
  compositionObjs : list string;
  testCache : gmap string (gmap string Value);
  useTestCache : bool
}.

(** [new ConditionEvaluator(subscriptionCache, compositionObjs)] *)
Definition new (subscriptionCache : gmap string (gmap string Value))
  (compositionObjs : list string) : ConditionEvaluator := {|
  subscriptionCache := subscriptionCache;
  compositionObjs := compositionObjs;
  testCache := ∅;
  useTestCache := false
|}.

Definition setTestDataCache (this : ConditionEvaluator)
  (testCache : gmap string (gmap string Value)) : ConditionEvaluator := {|
  subscriptionCache := subscriptionCache this;
  compositionObjs := compositionObjs this;
  testCache := testCache;
  useTestCache := useTestCache this
|}.

Definition useTestData (this : ConditionEvaluator) (useTestCache : bool)
  : ConditionEvaluator := {|
  subscriptionCache := subscriptionCache this;
  compositionObjs := compositionObjs this;
  testCache := testCache this;
  useTestCache := useTestCache
|}.

(** The cache [executeCondition] reads. *)
Definition cache (this : ConditionEvaluator) : gmap string (gmap string Value) :=
  if useTestCache this then testCache this else subscriptionCache this.

(** [cache[object][key]] when [cache[object]] is there; a missing property
    reads as undefined. *)
Definition cache_value (c : gmap string (gmap string Value)) (object key : string)
  : option Value :=
  match c !! object with
  | Some fields =>
      match fields !! key with
      | Some value => Some value
      | None => Some VUndefined
      end
  | None => None
  end.

(** The local [telemetryValue] of [executeCondition]: a one-element array
    when the cache holds a defined value, otherwise left undefined. *)
Definition telemetryValue (this : ConditionEvaluator) (object key : string)
  : option (list Value) :=
  match cache_value (cache this) object key with
  | Some value =>
      if negb (String.eqb (typeof value) "undefined") then
        Some [if isNaN (Number value) then value else VNum (Number value)]
      else None
  | None => None
  end.

Definition executeCondition (this : ConditionEvaluator)
  (object key opKey : string) (values : list Value) : Completion Value :=
  let telemetryValue := telemetryValue this object key in
  let op := option_map Operation.operation (get operations opKey) in
  let input := option_map (fun t => (t ++ values)%list) telemetryValue in
  let validator :=
    match get operations opKey with
    | Some o =>
        match Operation.appliesTo o with
        | type :: _ => get inputValidators type
        | [] => None
        end
    | None => None
    end in
  match get operations opKey, op, input, validator with
  | Some o, Some op, Some input, Some validator =>
      if (1 <? length (Operation.appliesTo o))%nat then
        and_then (VBool (validateNumberInput input || validateStringInput input)) (op input)
      else
        and_then (VBool (validator input)) (op input)
  | _, _, _, _ => Throw MalformedCondition
  end.

(** The variables of [execute] that its callbacks assign. *)
Record Locals : Type := {
  active : Value;
  conditionValue : Value;
  conditionDefined : bool;
  firstRuleEvaluated : bool
}.

(** One turn of the loop over the entities for [condition.object === 'any']:
    the two assignments of the try block, or none of them on a throw. *)
Definition any_member (this : ConditionEvaluator) (condition : Condition.t)
  (st : Value * bool) (objId : string) : Value * bool :=
  try_catch
    (bind (or_else (fst st)
             (executeCondition this objId (Condition.key condition)
                (Condition.operation condition) (Condition.values condition)))
          (fun v => Return (v, true)))
    st.

(** The same for [condition.object === 'all']. *)
Definition all_member (this : ConditionEvaluator) (condition : Condition.t)
  (st : Value * bool) (objId : string) : Value * bool :=
  try_catch
    (bind (and_then (fst st)
             (executeCondition this objId (Condition.key condition)
                (Condition.operation condition) (Condition.values condition)))
          (fun v => Return (v, true)))
    st.

(** The first half of the callback over the conditions: [conditionValue]
    and [conditionDefined] after the three-way branch on the object. *)
Definition evaluate (this : ConditionEvaluator) (conditionValue : Value)
  (condition : Condition.t) : Value * bool :=
  if String.eqb (Condition.object condition) "any" then
    fold_left (any_member this condition) (compositionObjs this) (VBool false, false)
  else if String.eqb (Condition.object condition) "all" then
    fold_left (all_member this condition) (compositionObjs this) (VBool true, false)
  else
    try_catch
      (bind (executeCondition this (Condition.object condition) (Condition.key condition)
               (Condition.operation condition) (Condition.values condition))
            (fun v => Return (v, true)))
      (conditionValue, false).

(** [active || conditionValue] and [active && conditionValue] on values. *)
Definition js_or (a b : Value) : Value := if truthy a then a else b.
Definition js_and (a b : Value) : Value := if truthy a then b else a.

(** The callback of [conditions.forEach]. *)
Definition step (this : ConditionEvaluator) (mode : string) (st : Locals)
  (condition : Condition.t) : Locals :=
  let '(cv, cd) := evaluate this (conditionValue st) condition in
  if cd then
    let active1 :=
      if String.eqb mode "all" && negb (firstRuleEvaluated st) then VBool true
      else active st in
    {| active :=
         if String.eqb mode "any" then js_or active1 cv
         else if String.eqb mode "all" then js_and active1 cv
         else active1;
       conditionValue := cv;
       conditionDefined := cd;
       firstRuleEvaluated := true |}
  else
    {| active := active st;
       conditionValue := cv;
       conditionDefined := cd;
       firstRuleEvaluated := firstRuleEvaluated st |}.

Definition initial : Locals := {|
  active := VBool false;
  conditionValue := VUndefined;
  conditionDefined := false;
  firstRuleEvaluated := false
|}.

(** [this.executeJavaScriptCondition] is not defined by the module: the call
    is a call of undefined. *)
Definition executeJavaScriptCondition (this : ConditionEvaluator)
  (conditions : option (list Condition.t)) : Completion Value :=
  Throw TypeError.

(** [conditions] is [None] for a call without a condition list
    ([conditions || []]). *)
Definition execute (this : ConditionEvaluator)
  (conditions : option (list Condition.t)) (mode : string) : Completion Value :=
  if String.eqb mode "js" then executeJavaScriptCondition this conditions
  else
    Return (active (fold_left (step this mode)
                      (match conditions with Some l => l | None => [] end)
                      initial)).

(** ** Accessors of the operation library *)


Definition getOperationText (key : string) : Completion Value :=
  match get operations key with
  | Some o => Return (VStr (Operation.text o))
  | None => Throw TypeError
  end.


Definition getInputCount (key : string) : Completion Value :=
  match get operations key with
  | Some o => Return (VNum (num_of_Z (Operation.inputCount o)))
  | None => Return VUndefined
  end.

Definition getOperationDescription (key : string) (values : list Value)
  : Completion Value :=
  match get operations key with
  | Some o => Return (VStr (Operation.getDescription o values))
  | None => Return VUndefined
  end.

Definition getInputTypeById (dataType : string) : Completion Value :=
  match get inputTypes dataType with
  | Some t => Return (VStr t)
  | None => Return VUndefined
  end.

Definition getInputType (key : string) : Completion Value :=
  match get operations key with
  | Some o =>
      match Operation.appliesTo o with
      | type :: _ => getInputTypeById type
      | [] => Return VUndefined
      end
  | None => Return VUndefined
  end.

(** ** Notions used to state the properties *)

(** The type check [executeCondition] applies to the operand array of a
    library entry: either of the two validators for an entry applying to
    several types, the validator of its first type otherwise; [None] when
    there is no validator for that type. *)
Definition validation (o : Operation.t) (input : list Value) : option bool :=
  match Operation.appliesTo o with
  | type :: _ =>
      match get inputValidators type with
      | Some validator =>
          Some (if (1 <? length (Operation.appliesTo o))%nat
                then validateNumberInput input || validateStringInput input
                else validator input)
      | None => None
      end
  | [] => None
  end.

Definition is_throw {A} (c : Completion A) : bool :=
  match c with
  | Throw _ => true
  | Return _ => false
  end.

(** The entities a condition is evaluated against. *)
Definition targets (this : ConditionEvaluator) (condition : Condition.t) : list string :=
  if String.eqb (Condition.object condition) "any"
     || String.eqb (Condition.object condition) "all"
  then compositionObjs this
  else [Condition.object condition].

(** [executeCondition] throws for this condition on entity [objId]. *)
Definition fails_on (this : ConditionEvaluator) (condition : Condition.t)
  (objId : string) : bool :=
  is_throw (executeCondition this objId (Condition.key condition)
              (Condition.operation condition) (Condition.values condition)).

(** No evaluation of the condition succeeds: the direct one, or any member
    of its fan-out. *)
Definition never_defined (this : ConditionEvaluator) (condition : Condition.t) : bool :=
  forallb (fails_on this condition) (targets this condition).

(** The same evaluator over another entity set. *)
Definition with_compositionObjs (this : ConditionEvaluator) (objs : list string)
  : ConditionEvaluator := {|
  subscriptionCache := subscriptionCache this;
  compositionObjs := objs;
  testCache := testCache this;
  useTestCache := useTestCache this
|}.

(** Fixtures: entities A and B with a numeric field x. *)
Definition cache_AB : gmap string (gmap string Value) :=
  {[ "A" := {[ "x" := VNum (num_of_Z 5) ]};
     "B" := {[ "x" := VNum (num_of_Z 10) ]} ]}.

Definition evaluator_AB : ConditionEvaluator := new cache_AB ["A"; "B"].

(** A condition on field x. *)
Definition on_x (object opKey : string) (values : list Value) : Condition.t := {|
  Condition.object := object;
  Condition.key := "x";
  Condition.operation := opKey;
  Condition.values := values
|}.

(** The same cache with an entity C in the entity set that has no cached
    values. *)
Definition evaluator_ACB : ConditionEvaluator := new cache_AB ["A"; "C"; "B"].

(** A test cache holding [A.x = 1]. *)
Definition test_cache_A : gmap string (gmap string Value) :=
  {[ "A" := {[ "x" := VNum (num_of_Z 1) ]} ]}.

(** The reading of "textually numeric": a text that parses, as a whole, to
    a finite number. *)
Definition parses_to_finite_number (v : Value) : bool :=
  match v with
  | VStr s => is_finite (StringToNumber s)
  | _ => false
  end.

(** An evaluator whose only cached value is [A.x = v]. *)
Definition evaluator_A (v : Value) : ConditionEvaluator :=
  new {[ "A" := {[ "x" := v ]} ]} ["A"].

(** What [execute] carries from one condition to the next and finally
    returns: [conditionValue] and [conditionDefined] are overwritten before
    they are read again. *)
Definition outcome (st : Locals) : Value * bool :=
  (active st, firstRuleEvaluated st).

(** While no member of a fan-out has been evaluated, [conditionValue] is
    still the seed: falsy for 'any', truthy for 'all'. *)
Definition seeded (seed : bool) (st : Value * bool) : Prop :=
  snd st = false -> truthy (fst st) = seed.

(** The result of a condition on one entity. *)
Definition member_result (this : ConditionEvaluator) (condition : Condition.t)
  (objId : string) : Completion Value :=
  executeCondition this objId (Condition.key condition)
    (Condition.operation condition) (Condition.values condition).

(** Whether the condition holds on the entity; [skipped] is what an entity
    on which it throws counts for. *)
Definition member_truthy (skipped : bool) (this : ConditionEvaluator)
  (condition : Condition.t) (objId : string) : bool :=
  match member_result this condition objId with
  | Return v => truthy v
  | Throw _ => skipped
  end.

(** The values of the conditions of a list that become defined, in order. *)
Definition defined_values (this : ConditionEvaluator) (conditions : list Condition.t)
  : list Value :=
  flat_map (fun condition =>
              let '(cv, cd) := evaluate this VUndefined condition in
              if cd then [cv] else [])
           conditions.

(** A condition on field x of entity A. *)
Definition A_x (opKey : string) (values : list Value) : Condition.t :=
  on_x "A" opKey values.

(** ** Test utilities: [getLatestTelemetry] of src/utils/testing.js *)

(** [datum[k]] on a telemetry datum, an object with primitive values. *)
Definition property (datum : gmap string Value) (k : string) : Value :=
  match datum !! k with
  | Some v => v
  | None => VUndefined
  end.

(** [getLatestTelemetry(telemetry = [], opts = {})].  [timeFormat] is
    [opts.timeFormat], [None] when [opts] has none; the result is [None]
    when the function returns the empty array [latest] starts as. *)
Definition getLatestTelemetry (telemetry : list (gmap string Value))
  (timeFormat : option string) : option (gmap string Value) :=
  let timeFormat :=
    match timeFormat with
    | Some f => if truthy (VStr f) then f else "utc"
    | None => "utc"
    end in
  match telemetry with
  | [] => None
  | first :: rest =>
      Some (fold_left
              (fun prev cur =>
                 if gt (property prev timeFormat) (property cur timeFormat)
                 then prev else cur)
              rest first)
  end.

(** The key the data are compared by: the local [timeFormat]. *)
Definition time_key (timeFormat : option string) : string :=
  match timeFormat with
  | Some f => if truthy (VStr f) then f else "utc"
  | None => "utc"
  end.

(** [a[k] > b[k]]: datum [a] is strictly later than datum [b]. *)
Definition later (k : string) (a b : gmap string Value) : bool :=
  gt (property a k) (property b k).

(** The time of a datum, when it is a number other than NaN. *)
Definition time_of (timeFormat : string) (datum : gmap string Value) : option spec_float :=
  match property datum timeFormat with
  | VNum n => if isNaN n then None else Some n
  | _ => None
  end.

(** Three data with the times 1, 3 and 3. *)
Definition datum_at (name : string) (t : Z) : gmap string Value :=
  {[ "utc" := VNum (num_of_Z t); "name" := VStr name ]}.

Definition three_data : list (gmap string Value) :=
  [datum_at "first" 1; datum_at "second" 3; datum_at "third" 3].

(** ** Auxiliary facts *)

(** *** Order of binary64 data *)

Lemma SFcompare_swap a b :
  SFcompare a b = option_map CompOpp (SFcompare b a).
Proof.
  destruct a as [sa|sa| |sa ma ea], b as [sb|sb| |sb mb eb]; simpl;
    try reflexivity; try (destruct sa; reflexivity); try (destruct sb; reflexivity);
    try (destruct sa, sb; reflexivity).
  destruct sa, sb; simpl; try reflexivity;
    rewrite (Z.compare_antisym ea eb); destruct (ea ?= eb)%Z; simpl; try reflexivity;
    change (Pos.compare_cont Eq ma mb) with (Pos.compare ma mb);
    change (Pos.compare_cont Eq mb ma) with (Pos.compare mb ma);
    rewrite (Pos.compare_antisym ma mb); destruct (ma ?= mb)%positive; reflexivity.
Qed.

Lemma SFcompare_Eq_inv a b :
  SFcompare a b = Some Eq ->
  (exists sa sb, a = S754_zero sa /\ b = S754_zero sb) \/ a = b.
Proof.
  destruct a as [sa|sa| |sa ma ea], b as [sb|sb| |sb mb eb]; simpl; intros H;
    try discriminate;
    try (destruct sa; discriminate); try (destruct sb; discriminate).
  - left; eauto.
  - right. destruct sa, sb; try discriminate; reflexivity.
  - right. destruct sa, sb; try discriminate;
      destruct (ea ?= eb)%Z eqn:He; try discriminate;
      apply Z.compare_eq in He; subst eb;
      change (Pos.compare_cont Eq ma mb) with (Pos.compare ma mb) in H;
      destruct (ma ?= mb)%positive eqn:Hm; try discriminate;
      apply Pos.compare_eq in Hm; subst mb; reflexivity.
Qed.

Lemma SFcompare_Eq_l a b c :
  SFcompare a b = Some Eq -> SFcompare a c = SFcompare b c.
Proof.
  intros H. destruct (SFcompare_Eq_inv a b H) as [(sa & sb & -> & ->)| ->].
  - destruct c; reflexivity.
  - reflexivity.
Qed.

Lemma SFcompare_Eq_r a b c :
  SFcompare a b = Some Eq -> SFcompare c a = SFcompare c b.
Proof.
  intros H. rewrite (SFcompare_swap c a), (SFcompare_swap c b).
  now rewrite (SFcompare_Eq_l a b c H).
Qed.

Lemma SFeqb_compare a b : SFeqb a b = true -> SFcompare a b = Some Eq.
Proof.
  unfold SFeqb. destruct (SFcompare a b) as [[| |]|]; intros H; congruence.
Qed.

(** A number equal to a bound is neither below nor above it. *)
Lemma SFeqb_not_ltb a b :
  SFeqb a b = true -> SFltb a b = false /\ SFltb b a = false.
Proof.
  intros H. apply SFeqb_compare in H. unfold SFltb.
  rewrite (SFcompare_swap b a), H. split; reflexivity.
Qed.

(** Below or equal excludes above. *)
Lemma SFleb_not_gtb a b : SFleb a b = true -> SFltb b a = false.
Proof.
  unfold SFleb, SFltb. rewrite (SFcompare_swap b a).
  destruct (SFcompare a b) as [[| |]|]; simpl; congruence.
Qed.

Lemma SFltb_eq_l a b c : SFeqb a b = true -> SFltb a c = SFltb b c.
Proof.
  intros H. unfold SFltb. now rewrite (SFcompare_Eq_l a b c (SFeqb_compare _ _ H)).
Qed.

Lemma SFltb_eq_r a b c : SFeqb a b = true -> SFltb c a = SFltb c b.
Proof.
  intros H. unfold SFltb. now rewrite (SFcompare_Eq_r a b c (SFeqb_compare _ _ H)).
Qed.

(** *** The operation library *)

Lemma get_In {A} (obj : list (string * A)) k a :
  get obj k = Some a -> In a (map snd obj).
Proof.
  unfold get. destruct (find _ obj) as [[k' a']|] eqn:Hfind; simpl; intros H;
    [|discriminate].
  injection H as <-. apply find_some in Hfind as [Hin _].
  apply in_map_iff. exists (k', a'). split; [reflexivity | exact Hin].
Qed.

(** Case analysis over the seventeen entries. *)
Ltac each_operation H :=
  simpl in H;
  repeat (destruct H as [<-|H]; [|]); [..|contradiction H].

(** Every entry has a validator for its first type. *)
Lemma validation_defined opKey o input :
  get operations opKey = Some o -> exists b, validation o input = Some b.
Proof.
  intros H. apply get_In in H. each_operation H; eexists; reflexivity.
Qed.

Lemma fold_and_false {A} (p : A -> bool) l :
  fold_left (fun valid value => valid && p value) l false = false.
Proof. induction l as [|a l IH]; simpl; [reflexivity | exact IH]. Qed.


Lemma validateNumberInput_head v l :
  validateNumberInput (v :: l) = true -> exists n, v = VNum n.
Proof.
  unfold validateNumberInput. simpl.
  destruct v; simpl; try (rewrite fold_and_false; discriminate).
  eauto.
Qed.


(** *** [executeCondition] *)

Lemma telemetryValue_cached this object key value :
  cache_value (cache this) object key = Some value ->
  value <> VUndefined ->
  telemetryValue this object key =
    Some [if isNaN (Number value) then value else VNum (Number value)].
Proof.
  intros H Hdef. unfold telemetryValue. rewrite H.
  destruct value; try reflexivity. contradiction Hdef; reflexivity.
Qed.


Lemma executeCondition_resolved this object key opKey values o t :
  get operations opKey = Some o ->
  telemetryValue this object key = Some t ->
  executeCondition this object key opKey values =
    match validation o (t ++ values) with
    | Some b => and_then (VBool b) (Operation.operation o (t ++ values))
    | None => Throw MalformedCondition
    end.
Proof.
  intros Hop Ht. unfold executeCondition, validation. rewrite Hop, Ht. simpl.
  destruct (Operation.appliesTo o) as [|type rest]; [reflexivity|].
  destruct (get inputValidators type); [|reflexivity].
  destruct (1 <? length (type :: rest))%nat; reflexivity.
Qed.

Lemma executeCondition_absent this object key opKey values :
  telemetryValue this object key = None ->
  executeCondition this object key opKey values = Throw MalformedCondition.
Proof.
  intros Ht. unfold executeCondition. rewrite Ht. simpl.
  destruct (get operations opKey); reflexivity.
Qed.

Lemma executeCondition_unknown this object key opKey values :
  get operations opKey = None ->
  executeCondition this object key opKey values = Throw MalformedCondition.
Proof.
  intros Hop. unfold executeCondition. rewrite Hop. reflexivity.
Qed.


(** *** The loop of [execute] *)

Lemma executeCondition_with_compositionObjs this objs object key opKey values :
  executeCondition (with_compositionObjs this objs) object key opKey values =
  executeCondition this object key opKey values.
Proof. reflexivity. Qed.

Section FanOut.
Variables (this : ConditionEvaluator) (condition : Condition.t).

Lemma any_member_seeded st objId :
  seeded false st -> seeded false (any_member this condition st objId).
Proof.
  unfold seeded, any_member, or_else. intros Hst.
  destruct (truthy (fst st)) eqn:Htr; simpl; [discriminate|].
  destruct (executeCondition _ _ _ _ _); simpl; [discriminate | intros _; exact Htr].
Qed.

Lemma all_member_seeded st objId :
  seeded true st -> seeded true (all_member this condition st objId).
Proof.
  unfold seeded, all_member, and_then. intros Hst.
  destruct (truthy (fst st)) eqn:Htr; simpl; [|discriminate].
  destruct (executeCondition _ _ _ _ _); simpl; [discriminate | intros _; exact Htr].
Qed.

(** A member whose evaluation throws leaves both variables as they were. *)
Lemma any_member_fails st objId :
  seeded false st -> fails_on this condition objId = true ->
  any_member this condition st objId = st.
Proof.
  unfold seeded, any_member, or_else, fails_on. intros Hst Hf.
  destruct (truthy (fst st)) eqn:Htr; simpl.
  - destruct st as [v [|]]; [reflexivity|]. simpl in *.
    specialize (Hst eq_refl). congruence.
  - destruct (executeCondition _ _ _ _ _); [discriminate | reflexivity].
Qed.

Lemma all_member_fails st objId :
  seeded true st -> fails_on this condition objId = true ->
  all_member this condition st objId = st.
Proof.
  unfold seeded, all_member, and_then, fails_on. intros Hst Hf.
  destruct (truthy (fst st)) eqn:Htr; simpl.
  - destruct (executeCondition _ _ _ _ _); [discriminate | reflexivity].
  - destruct st as [v [|]]; [reflexivity|]. simpl in *.
    specialize (Hst eq_refl). congruence.
Qed.

Lemma fold_any_seeded objs st :
  seeded false st -> seeded false (fold_left (any_member this condition) objs st).
Proof.
  revert st. induction objs as [|o objs IH]; simpl; intros st Hst; [exact Hst|].
  apply IH, any_member_seeded, Hst.
Qed.

Lemma fold_all_seeded objs st :
  seeded true st -> seeded true (fold_left (all_member this condition) objs st).
Proof.
  revert st. induction objs as [|o objs IH]; simpl; intros st Hst; [exact Hst|].
  apply IH, all_member_seeded, Hst.
Qed.

(** Dropping a failing member from the entity list changes nothing. *)
Lemma fold_any_skip k1 objId k2 st :
  seeded false st -> fails_on this condition objId = true ->
  fold_left (any_member this condition) (k1 ++ objId :: k2) st =
  fold_left (any_member this condition) (k1 ++ k2) st.
Proof.
  intros Hst Hf. rewrite !fold_left_app. simpl.
  rewrite any_member_fails; [reflexivity | | exact Hf].
  apply fold_any_seeded, Hst.
Qed.

Lemma fold_all_skip k1 objId k2 st :
  seeded true st -> fails_on this condition objId = true ->
  fold_left (all_member this condition) (k1 ++ objId :: k2) st =
  fold_left (all_member this condition) (k1 ++ k2) st.
Proof.
  intros Hst Hf. rewrite !fold_left_app. simpl.
  rewrite all_member_fails; [reflexivity | | exact Hf].
  apply fold_all_seeded, Hst.
Qed.

Lemma fold_any_all_fail objs st :
  seeded false st -> forallb (fails_on this condition) objs = true ->
  fold_left (any_member this condition) objs st = st.
Proof.
  revert st. induction objs as [|o objs IH]; simpl; intros st Hst Hall; [reflexivity|].
  apply andb_true_iff in Hall as [Ho Hall].
  rewrite any_member_fails by assumption. now apply IH.
Qed.

Lemma fold_all_all_fail objs st :
  seeded true st -> forallb (fails_on this condition) objs = true ->
  fold_left (all_member this condition) objs st = st.
Proof.
  revert st. induction objs as [|o objs IH]; simpl; intros st Hst Hall; [reflexivity|].
  apply andb_true_iff in Hall as [Ho Hall].
  rewrite all_member_fails by assumption. now apply IH.
Qed.

(** A condition none of whose evaluations succeeds stays undefined. *)
Lemma evaluate_never_defined cv :
  never_defined this condition = true -> snd (evaluate this cv condition) = false.
Proof.
  unfold never_defined, targets, evaluate. intros H.
  destruct (String.eqb (Condition.object condition) "any"); simpl in H.
  - rewrite fold_any_all_fail; [reflexivity | intros _; reflexivity | exact H].
  - destruct (String.eqb (Condition.object condition) "all"); simpl in H.
    + rewrite fold_all_all_fail; [reflexivity | intros _; reflexivity | exact H].
    + rewrite andb_true_r in H. unfold fails_on in H.
      destruct (executeCondition _ _ _ _ _); [discriminate | reflexivity].
Qed.

(** Whether the condition is defined, and its value when it is, do not
    depend on the value left over from earlier conditions. *)
Lemma evaluate_leftover cv cv' :
  snd (evaluate this cv condition) = snd (evaluate this cv' condition) /\
  (snd (evaluate this cv condition) = true ->
   fst (evaluate this cv condition) = fst (evaluate this cv' condition)).
Proof.
  unfold evaluate.
  destruct (String.eqb (Condition.object condition) "any"); [auto|].
  destruct (String.eqb (Condition.object condition) "all"); [auto|].
  destruct (executeCondition _ _ _ _ _); simpl; [auto | split; [reflexivity | discriminate]].
Qed.
End FanOut.

Lemma fold_any_defined this condition objs st :
  seeded false st ->
  snd (fold_left (any_member this condition) objs st) =
  snd st || negb (forallb (fails_on this condition) objs).
Proof.
  revert st. induction objs as [|o objs IH]; simpl; intros st Hst.
  - now rewrite orb_false_r.
  - rewrite IH by now apply any_member_seeded.
    destruct (fails_on this condition o) eqn:Hf; simpl.
    + now rewrite any_member_fails.
    + replace (snd (any_member this condition st o)) with true; [now rewrite orb_true_r|].
      unfold fails_on in Hf. unfold any_member, or_else.
      destruct (truthy (fst st)); simpl; [reflexivity|].
      destruct (executeCondition _ _ _ _ _); [reflexivity | discriminate].
Qed.

Lemma fold_all_defined this condition objs st :
  seeded true st ->
  snd (fold_left (all_member this condition) objs st) =
  snd st || negb (forallb (fails_on this condition) objs).
Proof.
  revert st. induction objs as [|o objs IH]; simpl; intros st Hst.
  - now rewrite orb_false_r.
  - rewrite IH by now apply all_member_seeded.
    destruct (fails_on this condition o) eqn:Hf; simpl.
    + now rewrite all_member_fails.
    + replace (snd (all_member this condition st o)) with true; [now rewrite orb_true_r|].
      unfold fails_on in Hf. unfold all_member, and_then.
      destruct (truthy (fst st)); simpl; [|reflexivity].
      destruct (executeCondition _ _ _ _ _); [reflexivity | discriminate].
Qed.

(** [conditionDefined] is set exactly when some evaluation of the condition
    succeeds. *)
Lemma evaluate_defined this cv condition :
  snd (evaluate this cv condition) = negb (never_defined this condition).
Proof.
  unfold never_defined, targets, evaluate.
  destruct (String.eqb (Condition.object condition) "any"); simpl.
  - now rewrite fold_any_defined by (intros _; reflexivity).
  - destruct (String.eqb (Condition.object condition) "all"); simpl.
    + now rewrite fold_all_defined by (intros _; reflexivity).
    + unfold fails_on. destruct (executeCondition _ _ _ _ _); reflexivity.
Qed.

Lemma step_outcome this mode st st' condition :
  outcome st = outcome st' ->
  outcome (step this mode st condition) = outcome (step this mode st' condition).
Proof.
  unfold outcome, step. intros H. injection H as Ha Hf.
  destruct (evaluate_leftover this condition (conditionValue st) (conditionValue st'))
    as [Hd Hv].
  destruct (evaluate this (conditionValue st) condition) as [cv cd].
  destruct (evaluate this (conditionValue st') condition) as [cv' cd'].
  simpl in Hd, Hv. subst cd'. destruct cd; simpl.
  - rewrite <- (Hv eq_refl), Ha, Hf. reflexivity.
  - now rewrite Ha, Hf.
Qed.

Lemma fold_step_outcome this mode conditions st st' :
  outcome st = outcome st' ->
  outcome (fold_left (step this mode) conditions st) =
  outcome (fold_left (step this mode) conditions st').
Proof.
  revert st st'. induction conditions as [|c l IH]; simpl; intros st st' H; [exact H|].
  apply IH, step_outcome, H.
Qed.

(** An undefined condition is transparent for the accumulator. *)
Lemma step_never_defined this mode st condition :
  never_defined this condition = true ->
  outcome (step this mode st condition) = outcome st.
Proof.
  intros H. unfold step.
  pose proof (evaluate_never_defined this condition (conditionValue st) H) as Hd.
  destruct (evaluate this (conditionValue st) condition) as [cv cd].
  simpl in Hd. subst cd. reflexivity.
Qed.

Lemma fold_step_never_defined this mode conditions st :
  forallb (never_defined this) conditions = true ->
  outcome (fold_left (step this mode) conditions st) = outcome st.
Proof.
  revert st. induction conditions as [|c l IH]; simpl; intros st H; [reflexivity|].
  apply andb_true_iff in H as [Hc Hl].
  rewrite (IH _ Hl). now apply step_never_defined.
Qed.

Lemma mode_not_js mode :
  mode = "any" \/ mode = "all" -> String.eqb mode "js" = false.
Proof. intros [-> | ->]; reflexivity. Qed.

(** ** Properties of condition execution *)

(** C1, as stated, fails: with [A.x = 5], [greaterThan] against the text
    "abc" does not pass the number check, and [executeCondition] returns
    [false] instead of throwing; in mode 'all' that [false] is aggregated
    and turns an otherwise true rule set false. *)
Lemma type_check_failure_is_not_malformed :
  get operations "greaterThan" = Some greaterThan /\
  telemetryValue evaluator_AB "A" "x" = Some [VNum (num_of_Z 5)] /\
  validation greaterThan [VNum (num_of_Z 5); VStr "abc"] = Some false /\
  executeCondition evaluator_AB "A" "x" "greaterThan" [VStr "abc"] = Return (VBool false) /\
  executeCondition evaluator_AB "A" "x" "greaterThan" [VStr "abc"]
    <> Throw MalformedCondition /\
  never_defined evaluator_AB (on_x "A" "greaterThan" [VStr "abc"]) = false /\
  execute evaluator_AB (Some [on_x "A" "greaterThan" [VNum (num_of_Z 3)]]) "all"
    = Return (VBool true) /\
  execute evaluator_AB
    (Some [on_x "A" "greaterThan" [VNum (num_of_Z 3)];
           on_x "A" "greaterThan" [VStr "abc"]]) "all"
    = Return (VBool false).
Proof. repeat split; try reflexivity. discriminate. Qed.

(** C1 (amended): for every operation of the library and every operand
    array (the resolved field value followed by the comparison values) that
    fails the operation's type check, [executeCondition] returns [false];
    it does not throw, so the condition counts as evaluated, with value
    [false], and enters the aggregation. *)
Theorem type_check_failure_returns_false this object key opKey values o t :
  get operations opKey = Some o ->
  telemetryValue this object key = Some t ->
  validation o (t ++ values) = Some false ->
  executeCondition this object key opKey values = Return (VBool false) /\
  fails_on this
    {| Condition.object := object; Condition.key := key;
       Condition.operation := opKey; Condition.values := values |} object = false.
Proof.
  intros Hop Ht Hv.
  assert (H : executeCondition this object key opKey values = Return (VBool false)).
  { rewrite (executeCondition_resolved _ _ _ _ _ o t Hop Ht), Hv. reflexivity. }
  split; [exact H|]. unfold fails_on. simpl. now rewrite H.
Qed.

Lemma type_check_failure_returns_false_witness :
  get operations "lessThan" = Some lessThan /\
  telemetryValue evaluator_AB "B" "x" = Some [VNum (num_of_Z 10)] /\
  validation lessThan ([VNum (num_of_Z 10)] ++ [VStr "eleven"]) = Some false /\
  executeCondition evaluator_AB "B" "x" "lessThan" [VStr "eleven"] = Return (VBool false) /\
  fails_on evaluator_AB (on_x "B" "lessThan" [VStr "eleven"]) "B" = false.
Proof.
  split; [reflexivity|]. split; [reflexivity|]. split; [reflexivity|].
  apply (type_check_failure_returns_false evaluator_AB "B" "x" "lessThan"
           [VStr "eleven"] lessThan [VNum (num_of_Z 10)]); reflexivity.
Defined.

(** C2: on a field without a cached value [executeCondition] throws for
    [isUndefined] and [isDefined] as for every other key, although the
    predicate of [isUndefined] answers [true] on an undefined value. *)
Theorem isUndefined_on_absent_field_throws :
  telemetryValue evaluator_AB "A" "y" = None /\
  telemetryValue evaluator_AB "C" "x" = None /\
  executeCondition evaluator_AB "A" "y" "isUndefined" [] = Throw MalformedCondition /\
  executeCondition evaluator_AB "C" "x" "isUndefined" [] = Throw MalformedCondition /\
  executeCondition evaluator_AB "A" "y" "isDefined" [] = Throw MalformedCondition /\
  executeCondition evaluator_AB "C" "x" "isDefined" [] = Throw MalformedCondition /\
  Operation.operation isUndefined [VUndefined] = Return (VBool true) /\
  Operation.operation isDefined [VUndefined] = Return (VBool false).
Proof. repeat split; reflexivity. Qed.

(** C3, as stated, fails for [notBetween]: with [A.x = 5] and [B.x = 10]
    and the bounds 5 and 10, it returns [false] at the lower and at the
    upper bound. *)
Lemma notBetween_is_false_at_the_bounds :
  executeCondition evaluator_AB "A" "x" "notBetween"
    [VNum (num_of_Z 5); VNum (num_of_Z 10)] = Return (VBool false) /\
  executeCondition evaluator_AB "B" "x" "notBetween"
    [VNum (num_of_Z 5); VNum (num_of_Z 10)] = Return (VBool false) /\
  executeCondition evaluator_AB "A" "x" "notBetween"
    [VNum (num_of_Z 5); VNum (num_of_Z 10)] <> Return (VBool true).
Proof. repeat split; try reflexivity. discriminate. Qed.

(** C3 (amended): for every numeric field value v and numeric bounds
    x1 <= x2, when v equals either bound [between] returns [false], and
    [notBetween] returns [false] as well: both compare strictly. *)
Theorem between_and_notBetween_exclude_the_bounds this object key v x1 x2 :
  cache_value (cache this) object key = Some (VNum v) ->
  SFleb x1 x2 = true ->
  SFeqb v x1 = true \/ SFeqb v x2 = true ->
  executeCondition this object key "between" [VNum x1; VNum x2] = Return (VBool false) /\
  executeCondition this object key "notBetween" [VNum x1; VNum x2] = Return (VBool false).
Proof.
  intros Hc Hle Heq.
  assert (Ht : telemetryValue this object key = Some [VNum v]).
  { rewrite (telemetryValue_cached _ _ _ _ Hc) by discriminate.
    simpl. destruct (isNaN v); reflexivity. }
  rewrite (executeCondition_resolved this object key "between" _ between [VNum v] eq_refl Ht).
  rewrite (executeCondition_resolved this object key "notBetween" _ notBetween [VNum v]
             eq_refl Ht).
  cbn. unfold gt, lt. cbn.
  pose proof (SFleb_not_gtb _ _ Hle) as Hgt.
  destruct Heq as [Heq|Heq].
  - destruct (SFeqb_not_ltb _ _ Heq) as [H1 H2].
    rewrite H1, H2, (SFltb_eq_r _ _ x2 Heq), Hgt. split; reflexivity.
  - destruct (SFeqb_not_ltb _ _ Heq) as [H1 H2].
    rewrite H1, H2, (SFltb_eq_l _ _ x1 Heq), Hgt, andb_false_r. split; reflexivity.
Qed.

Lemma between_and_notBetween_exclude_the_bounds_witness :
  cache_value (cache evaluator_AB) "A" "x" = Some (VNum (num_of_Z 5)) /\
  SFleb (num_of_Z 5) (num_of_Z 10) = true /\
  (SFeqb (num_of_Z 5) (num_of_Z 5) = true \/ SFeqb (num_of_Z 5) (num_of_Z 10) = true) /\
  executeCondition evaluator_AB "A" "x" "between"
    [VNum (num_of_Z 5); VNum (num_of_Z 10)] = Return (VBool false) /\
  executeCondition evaluator_AB "A" "x" "notBetween"
    [VNum (num_of_Z 5); VNum (num_of_Z 10)] = Return (VBool false).
Proof.
  split; [reflexivity|]. split; [reflexivity|]. split; [left; reflexivity|].
  apply (between_and_notBetween_exclude_the_bounds evaluator_AB "A" "x"
           (num_of_Z 5) (num_of_Z 5) (num_of_Z 10));
    [reflexivity | reflexivity | left; reflexivity].
Defined.

(** ** Properties of rule execution *)

(** C4: in mode 'any' or 'all', when no condition of the list becomes
    defined (each of its evaluations, direct or per entity, throws),
    [execute] returns [false]; this covers the empty list in both modes and
    a list of malformed conditions in mode 'all'. *)
Theorem execute_without_defined_condition_is_false this conditions mode :
  mode = "any" \/ mode = "all" ->
  forallb (never_defined this) conditions = true ->
  execute this (Some conditions) mode = Return (VBool false).
Proof.
  intros Hmode Hall. unfold execute. rewrite (mode_not_js mode Hmode).
  pose proof (fold_step_never_defined this mode conditions initial Hall) as H.
  unfold outcome in H. injection H as Ha _. now rewrite Ha.
Qed.

Lemma execute_without_defined_condition_is_false_witness :
  execute evaluator_AB (Some []) "any" = Return (VBool false) /\
  execute evaluator_AB (Some []) "all" = Return (VBool false) /\
  forallb (never_defined evaluator_AB)
    [on_x "A" "noSuchOperation" [VNum (num_of_Z 1)];
     on_x "C" "greaterThan" [VNum (num_of_Z 1)];
     on_x "all" "moreThan" []] = true /\
  execute evaluator_AB
    (Some [on_x "A" "noSuchOperation" [VNum (num_of_Z 1)];
           on_x "C" "greaterThan" [VNum (num_of_Z 1)];
           on_x "all" "moreThan" []]) "all" = Return (VBool false).
Proof.
  split; [|split; [|split]].
  - apply (execute_without_defined_condition_is_false evaluator_AB [] "any");
      [left; reflexivity | reflexivity].
  - apply (execute_without_defined_condition_is_false evaluator_AB [] "all");
      [right; reflexivity | reflexivity].
  - reflexivity.
  - apply (execute_without_defined_condition_is_false evaluator_AB _ "all");
      [right; reflexivity | reflexivity].
Defined.

(** C5: in mode 'any' or 'all' [execute] returns a value for every list of
    conditions, whatever [executeCondition] throws; a condition none of
    whose evaluations succeeds can be removed from the list without changing
    the result, wherever it stands, and so can a failing entity from the
    entity set of a fan-out: the rest is evaluated as if they were not
    there. *)
Theorem execute_absorbs_malformed_conditions this mode :
  mode = "any" \/ mode = "all" ->
  (forall conditions, exists v, execute this conditions mode = Return v) /\
  (forall before condition after,
      never_defined this condition = true ->
      execute this (Some (before ++ condition :: after)%list) mode =
      execute this (Some (before ++ after)%list) mode) /\
  (forall before objId after condition conditionValue,
      compositionObjs this = (before ++ objId :: after)%list ->
      fails_on this condition objId = true ->
      evaluate this conditionValue condition =
      evaluate (with_compositionObjs this (before ++ after)%list) conditionValue condition).
Proof.
  intros Hmode. split; [|split].
  - intros conditions. unfold execute. rewrite (mode_not_js mode Hmode). eauto.
  - intros before condition after Hc. unfold execute.
    rewrite (mode_not_js mode Hmode). f_equal.
    rewrite !fold_left_app. simpl.
    pose proof (fold_step_outcome this mode after _ _
                  (step_never_defined this mode
                     (fold_left (step this mode) before initial) condition Hc)) as H.
    unfold outcome in H. now injection H.
  - intros before objId after condition cv Hobjs Hf. unfold evaluate.
    cbn [compositionObjs with_compositionObjs]. rewrite Hobjs.
    destruct (String.eqb (Condition.object condition) "any").
    + apply (fold_any_skip this condition); [intros _; reflexivity | exact Hf].
    + destruct (String.eqb (Condition.object condition) "all").
      * apply (fold_all_skip this condition); [intros _; reflexivity | exact Hf].
      * reflexivity.
Qed.

Lemma execute_absorbs_malformed_conditions_witness :
  ("all" = "any" \/ "all" = "all") /\
  (exists v,
      execute evaluator_AB
        (Some [on_x "A" "noSuchOperation" []; on_x "B" "greaterThan" [VNum (num_of_Z 7)]])
        "all" = Return v) /\
  never_defined evaluator_AB (on_x "A" "noSuchOperation" []) = true /\
  execute evaluator_AB
    (Some ([] ++ on_x "A" "noSuchOperation" []
              :: [on_x "B" "greaterThan" [VNum (num_of_Z 7)]])%list) "all" =
  execute evaluator_AB
    (Some ([] ++ [on_x "B" "greaterThan" [VNum (num_of_Z 7)]])%list) "all" /\
  fails_on evaluator_ACB (on_x "all" "greaterThan" [VNum (num_of_Z 3)]) "C" = true /\
  evaluate evaluator_ACB VUndefined (on_x "all" "greaterThan" [VNum (num_of_Z 3)]) =
  evaluate (with_compositionObjs evaluator_ACB (["A"] ++ ["B"])%list) VUndefined
    (on_x "all" "greaterThan" [VNum (num_of_Z 3)]).
Proof.
  split; [right; reflexivity|]. split; [|split; [reflexivity|split; [|split; [reflexivity|]]]].
  - apply (proj1 (execute_absorbs_malformed_conditions evaluator_AB "all"
                    (or_intror eq_refl))).
  - apply (proj1 (proj2 (execute_absorbs_malformed_conditions evaluator_AB "all"
                           (or_intror eq_refl)))).
    reflexivity.
  - apply (proj2 (proj2 (execute_absorbs_malformed_conditions evaluator_ACB "all"
                           (or_intror eq_refl))) ["A"] "C" ["B"]);
      reflexivity.
Defined.

(** C7: with the entities A and B, [A.x = 5] and [B.x = 10], the single
    condition x > 7 on object 'any' evaluates to [true] and on object 'all'
    to [false], in either aggregation mode; per entity the results are
    [false] for A and [true] for B, combined from the seeds [false] and
    [true]. *)
Theorem fan_out_over_A_and_B :
  compositionObjs evaluator_AB = ["A"; "B"] /\
  executeCondition evaluator_AB "A" "x" "greaterThan" [VNum (num_of_Z 7)]
    = Return (VBool false) /\
  executeCondition evaluator_AB "B" "x" "greaterThan" [VNum (num_of_Z 7)]
    = Return (VBool true) /\
  evaluate evaluator_AB VUndefined (on_x "any" "greaterThan" [VNum (num_of_Z 7)])
    = (VBool true, true) /\
  evaluate evaluator_AB VUndefined (on_x "all" "greaterThan" [VNum (num_of_Z 7)])
    = (VBool false, true) /\
  execute evaluator_AB (Some [on_x "any" "greaterThan" [VNum (num_of_Z 7)]]) "any"
    = Return (VBool true) /\
  execute evaluator_AB (Some [on_x "any" "greaterThan" [VNum (num_of_Z 7)]]) "all"
    = Return (VBool true) /\
  execute evaluator_AB (Some [on_x "all" "greaterThan" [VNum (num_of_Z 7)]]) "any"
    = Return (VBool false) /\
  execute evaluator_AB (Some [on_x "all" "greaterThan" [VNum (num_of_Z 7)]]) "all"
    = Return (VBool false).
Proof. repeat split; vm_compute; reflexivity. Qed.

(** ** Properties of the accessors *)

(** C6: for a key outside the library [getOperationDescription] returns
    undefined, but [getOperationText] throws a TypeError (it reads [text]
    of undefined), unlike the guarded accessors next to it. *)
Theorem getOperationText_of_unknown_key_throws :
  get operations "noSuchOperation" = None /\
  getOperationText "noSuchOperation" = Throw TypeError /\
  getOperationDescription "noSuchOperation" [VNum (num_of_Z 1)] = Return VUndefined /\
  getInputCount "noSuchOperation" = Return VUndefined /\
  getInputType "noSuchOperation" = Return VUndefined /\
  executeCondition evaluator_AB "A" "x" "noSuchOperation" [VNum (num_of_Z 1)]
    = Throw MalformedCondition.
Proof. repeat split; reflexivity. Qed.

(** ** Properties of value resolution *)

Lemma SFeqb_refl n : isNaN n = false -> SFeqb n n = true.
Proof.
  unfold SFeqb. destruct n as [s|s| |s m e]; simpl; try discriminate; intros _.
  - reflexivity.
  - destruct s; reflexivity.
  - rewrite Z.compare_refl.
    change (Pos.compare_cont Eq m m) with (Pos.compare m m).
    rewrite Pos.compare_refl. destruct s; reflexivity.
Qed.

(** An entry applying to strings only rejects operands led by a number. *)
Lemma string_validation_of_number o n values :
  Operation.appliesTo o = ["string"] -> validation o (VNum n :: values) = Some false.
Proof.
  intros H. unfold validation. rewrite H. cbn.
  unfold validateStringInput. cbn. now rewrite fold_and_false.
Qed.

(** C8, as stated, fails: the text "Infinity" does not parse to a finite
    number, and null is not a text, yet both are replaced by a number
    (Infinity and 0), which a numeric comparison then sees. *)
Lemma coercion_is_not_limited_to_finite_text :
  parses_to_finite_number (VStr "Infinity") = false /\
  telemetryValue (evaluator_A (VStr "Infinity")) "A" "x" = Some [VNum Infinity] /\
  executeCondition (evaluator_A (VStr "Infinity")) "A" "x" "greaterThan"
    [VNum (num_of_Z 42)] = Return (VBool true) /\
  parses_to_finite_number VNull = false /\
  telemetryValue (evaluator_A VNull) "A" "x" = Some [VNum (S754_zero false)].
Proof. repeat split; reflexivity. Qed.

(** C8 (amended): [executeCondition] replaces the resolved cache value by
    [Number(value)] exactly when that is not NaN (so also for "Infinity",
    the empty text, null and booleans) and otherwise keeps the raw value;
    a field whose value converts to a number n is [equalTo] n, in
    particular the text "42" is equal to 42. *)
Theorem cached_value_is_coerced_unless_NaN this object key value :
  cache_value (cache this) object key = Some value ->
  value <> VUndefined ->
  (isNaN (Number value) = false ->
   telemetryValue this object key = Some [VNum (Number value)] /\
   executeCondition this object key "equalTo" [VNum (Number value)] = Return (VBool true)) /\
  (isNaN (Number value) = true -> telemetryValue this object key = Some [value]).
Proof.
  intros Hc Hdef. pose proof (telemetryValue_cached _ _ _ _ Hc Hdef) as Ht.
  split; intros Hn; rewrite Hn in Ht; [|exact Ht].
  split; [exact Ht|].
  rewrite (executeCondition_resolved this object key "equalTo" _ equalTo _ eq_refl Ht).
  cbn. now rewrite (SFeqb_refl _ Hn).
Qed.

Lemma cached_value_is_coerced_unless_NaN_witness :
  cache_value (cache (evaluator_A (VStr "42"))) "A" "x" = Some (VStr "42") /\
  VStr "42" <> VUndefined /\
  isNaN (Number (VStr "42")) = false /\
  telemetryValue (evaluator_A (VStr "42")) "A" "x" = Some [VNum (num_of_Z 42)] /\
  executeCondition (evaluator_A (VStr "42")) "A" "x" "equalTo" [VNum (num_of_Z 42)]
    = Return (VBool true).
Proof.
  split; [reflexivity|]. split; [discriminate|]. split; [reflexivity|].
  apply (proj1 (cached_value_is_coerced_unless_NaN (evaluator_A (VStr "42")) "A" "x"
                  (VStr "42") eq_refl ltac:(discriminate)) eq_refl).
Defined.

(** C9: after [useTestData(true)] and [setTestDataCache] of a cache with
    [A.x = 1], field x of A resolves to 1 whatever the live cache holds, and
    every evaluation depends on the test cache alone; after a later
    [useTestData(false)] every evaluation reads the live cache alone, while
    the test cache is still in place. *)
Theorem test_cache_replaces_live_cache this :
  let testing := setTestDataCache (useTestData this true) test_cache_A in
  let live := useTestData testing false in
  telemetryValue testing "A" "x" = Some [VNum (num_of_Z 1)] /\
  cache testing = test_cache_A /\
  (forall object key opKey values,
      executeCondition testing object key opKey values =
      executeCondition (new test_cache_A []) object key opKey values) /\
  cache live = subscriptionCache this /\
  testCache live = test_cache_A /\
  (forall object key opKey values,
      executeCondition live object key opKey values =
      executeCondition (new (subscriptionCache this) []) object key opKey values) /\
  (forall conditions mode,
      execute live conditions mode =
      execute (new (subscriptionCache this) (compositionObjs this)) conditions mode).
Proof. cbv zeta. repeat split. Qed.

(** C10: whether the cached value is replaced by a number is decided by
    [isNaN(Number(value))] alone: a cached text that converts to a number
    (the empty text converts to 0, "Infinity" to the non-finite Infinity) is
    passed on as that number, so every operation applying to strings only,
    such as [textIsExactly], fails its type check on that field and returns
    [false]; and a field holding the empty text is [equalTo] 0. *)
Theorem numeric_text_is_passed_as_number this object key s :
  cache_value (cache this) object key = Some (VStr s) ->
  isNaN (Number (VStr s)) = false ->
  Number (VStr "") = num_of_Z 0 /\
  Number (VStr "Infinity") = Infinity /\
  is_finite Infinity = false /\
  telemetryValue this object key = Some [VNum (StringToNumber s)] /\
  (forall opKey o values,
      get operations opKey = Some o ->
      Operation.appliesTo o = ["string"] ->
      validation o ([VNum (StringToNumber s)] ++ values) = Some false /\
      executeCondition this object key opKey values = Return (VBool false)) /\
  (s = "" ->
   executeCondition this object key "equalTo" [VNum (num_of_Z 0)] = Return (VBool true)).
Proof.
  intros Hc Hn.
  pose proof (telemetryValue_cached _ _ _ _ Hc ltac:(discriminate)) as Ht.
  rewrite Hn in Ht.
  assert (Heq : executeCondition this object key "equalTo" [VNum (Number (VStr s))]
                = Return (VBool true)).
  { rewrite (executeCondition_resolved this object key "equalTo" _ equalTo _ eq_refl Ht).
    cbn. do 2 f_equal. exact (SFeqb_refl _ Hn). }
  simpl in Ht, Heq.
  split; [reflexivity|]. split; [reflexivity|]. split; [reflexivity|].
  split; [exact Ht|]. split.
  - intros opKey o values Hop Hstr. split.
    + now apply string_validation_of_number.
    + rewrite (executeCondition_resolved _ _ _ _ _ o _ Hop Ht).
      simpl. now rewrite string_validation_of_number.
  - intros ->. exact Heq.
Qed.

Lemma numeric_text_is_passed_as_number_witness :
  cache_value (cache (evaluator_A (VStr ""))) "A" "x" = Some (VStr "") /\
  isNaN (Number (VStr "")) = false /\
  telemetryValue (evaluator_A (VStr "")) "A" "x" = Some [VNum (num_of_Z 0)] /\
  executeCondition (evaluator_A (VStr "")) "A" "x" "equalTo" [VNum (num_of_Z 0)]
    = Return (VBool true) /\
  executeCondition (evaluator_A (VStr "")) "A" "x" "textIsExactly" [VStr ""]
    = Return (VBool false).
Proof.
  split; [reflexivity|]. split; [reflexivity|].
  pose proof (numeric_text_is_passed_as_number (evaluator_A (VStr "")) "A" "x" ""
                eq_refl eq_refl) as (_ & _ & _ & Ht & Hstr & Heq).
  split; [exact Ht|]. split; [exact (Heq eq_refl)|].
  exact (proj2 (Hstr "textIsExactly" textIsExactly [VStr ""] eq_refl eq_refl)).
Defined.

(** ** Further properties of condition execution *)

Lemma get_In_pair {A} (obj : list (string * A)) k a :
  get obj k = Some a -> In (k, a) obj.
Proof.
  unfold get. destruct (find _ obj) as [[k' a']|] eqn:Hfind; simpl; intros H;
    [|discriminate].
  injection H as <-. apply find_some in Hfind as [Hin Heq].
  simpl in Heq. apply String.eqb_eq in Heq. now subst k'.
Qed.


(** The operand handed to an operation is a number, or a text that does
    not convert to one. *)
Lemma telemetryValue_operand this object key t :
  telemetryValue this object key = Some t ->
  exists v, t = [v] /\
    ((exists n, v = VNum n) \/ (exists s, v = VStr s /\ isNaN (StringToNumber s) = true)).
Proof.
  unfold telemetryValue. destruct (cache_value _ _ _) as [value|]; [|discriminate].
  destruct value as [| |b|n|s]; cbn [typeof Number String.eqb negb]; try discriminate.
  - intros H; injection H as <-. eexists; split; [reflexivity|]. left. cbn. eauto.
  - intros H; injection H as <-. eexists; split; [reflexivity|]. left.
    destruct b; cbn; eauto.
  - change (negb (String.eqb "number" "undefined")) with true. cbv iota.
    intros H; injection H as <-. eexists; split; [reflexivity|]. left.
    destruct (isNaN n); eauto.
  - change (negb (String.eqb "string" "undefined")) with true. cbv iota.
    intros H; injection H as <-. eexists; split; [reflexivity|].
    destruct (isNaN (StringToNumber s)) eqn:Hn; [right | left]; eauto.
Qed.



Lemma fold_and_forallb {A} (p : A -> bool) l b :
  fold_left (fun valid value => valid && p value) l b = b && forallb p l.
Proof.
  revert b. induction l as [|a l IH]; simpl; intros b.
  - now rewrite andb_true_r.
  - now rewrite IH, andb_assoc.
Qed.

Lemma typeof_number v : String.eqb (typeof v) "number" = true <-> exists n, v = VNum n.
Proof.
  destruct v; cbn; split; intros H; try discriminate; eauto;
    destruct H as [? H]; discriminate.
Qed.

Lemma typeof_string v : String.eqb (typeof v) "string" = true <-> exists s, v = VStr s.
Proof.
  destruct v; cbn; split; intros H; try discriminate; eauto;
    destruct H as [? H]; discriminate.
Qed.

(** X2: [validateNumberInput] accepts an array exactly when every element
    is a number and [validateStringInput] exactly when every element is a
    string; the empty array passes both, and it is the only one. *)
Theorem validators_check_every_operand input :
  (validateNumberInput input = true <-> forall v, In v input -> exists n, v = VNum n) /\
  (validateStringInput input = true <-> forall v, In v input -> exists s, v = VStr s) /\
  (validateNumberInput input && validateStringInput input = true <-> input = []).
Proof.
  unfold validateNumberInput, validateStringInput. rewrite !fold_and_forallb. cbn.
  repeat split.
  - intros H v Hin. rewrite forallb_forall in H. now apply typeof_number, H.
  - intros H. apply forallb_forall. intros v Hin. now apply typeof_number, H.
  - intros H v Hin. rewrite forallb_forall in H. now apply typeof_string, H.
  - intros H. apply forallb_forall. intros v Hin. now apply typeof_string, H.
  - destruct input as [|v l]; [reflexivity|]. intros H.
    apply andb_true_iff in H as [H1 H2]. cbn in H1, H2.
    apply andb_true_iff in H1 as [H1 _]. apply andb_true_iff in H2 as [H2 _].
    destruct v; discriminate.
  - intros ->. reflexivity.
Qed.

Lemma validateStringInput_cons v l :
  validateStringInput (v :: l) = true <->
  (exists s, v = VStr s) /\ validateStringInput l = true.
Proof.
  unfold validateStringInput. rewrite !fold_and_forallb. cbn.
  rewrite andb_true_iff, typeof_string. reflexivity.
Qed.

(** What a returning call went through: a library entry, a resolved
    operand, and either a failed type check or the entry's predicate. *)
Lemma executeCondition_Return_inv this object key opKey values r :
  executeCondition this object key opKey values = Return r ->
  exists o v,
    In (opKey, o) operations /\
    telemetryValue this object key = Some [v] /\
    ((exists n, v = VNum n) \/ (exists s, v = VStr s /\ isNaN (StringToNumber s) = true)) /\
    ((validation o (v :: values) = Some false /\ r = VBool false) \/
     (validation o (v :: values) = Some true /\
      Operation.operation o (v :: values) = Return r)).
Proof.
  intros H.
  destruct (get operations opKey) as [o|] eqn:Hop.
  2:{ rewrite executeCondition_unknown in H by assumption. discriminate. }
  destruct (telemetryValue this object key) as [t|] eqn:Ht.
  2:{ rewrite executeCondition_absent in H by assumption. discriminate. }
  rewrite (executeCondition_resolved _ _ _ _ _ o t Hop Ht) in H.
  destruct (telemetryValue_operand _ _ _ _ Ht) as (v & -> & Hv).
  destruct (validation_defined opKey o ([v] ++ values) Hop) as [b Hb].
  rewrite Hb in H. exists o, v. split; [now apply get_In_pair|].
  split; [reflexivity|]. split; [exact Hv|].
  destruct b; [right | left]; split; try exact Hb.
  - exact H.
  - cbn in H. congruence.
Qed.

(** Case analysis over the seventeen keys and their entries. *)
Ltac each_entry H :=
  simpl in H;
  repeat (destruct H as [H|H]; [injection H as <- <-|]); [..|contradiction H].

(** X3: a returning [executeCondition] yields a boolean, except that
    [textContains] and [textDoesNotContain] hand back their comparison
    value itself when it is the empty text or is missing. *)
Theorem executeCondition_result_shape this object key opKey values r :
  executeCondition this object key opKey values = Return r ->
  (exists b, r = VBool b) \/
  ((opKey = "textContains" \/ opKey = "textDoesNotContain") /\
   r = index values 0 /\ (r = VStr "" \/ r = VUndefined)).
Proof.
  intros H.
  destruct (executeCondition_Return_inv _ _ _ _ _ _ H)
    as (o & v & Hin & _ & Hv & [[_ ->]|[Hval Hr]]); [left; eauto|].
  each_entry Hin; try (cbn in Hr; injection Hr as <-; left; eauto; fail);
    injection Hval as Hval; apply validateStringInput_cons in Hval as [[s ->] Hrest];
    try (cbn in Hr; injection Hr as <-; left; eauto; fail);
    (destruct Hv as [[n Hn]|(s' & Hs' & Hnan)]; [discriminate|];
     injection Hs' as <-;
     destruct s as [|c s]; [cbv in Hnan; discriminate|];
     destruct values as [|w values];
     [cbn in Hr; injection Hr as <-; right; auto|];
     apply validateStringInput_cons in Hrest as [[t ->] _];
     destruct t as [|d t];
     [cbn in Hr; injection Hr as <-; right; auto|];
     cbn in Hr; injection Hr as <-; left; eauto).
Qed.

Lemma executeCondition_result_shape_witness :
  executeCondition (evaluator_A (VStr "hello")) "A" "x" "textContains" [VStr ""]
    = Return (VStr "") /\
  ((exists b, VStr "" = VBool b) \/
   (("textContains" = "textContains" \/ "textContains" = "textDoesNotContain") /\
    VStr "" = index [VStr ""] 0 /\ (VStr "" = VStr "" \/ VStr "" = VUndefined))).
Proof.
  split; [reflexivity|].
  apply (executeCondition_result_shape (evaluator_A (VStr "hello")) "A" "x"
           "textContains" [VStr ""] (VStr "")).
  reflexivity.
Defined.


(** ** Further properties of rule execution *)

Lemma truthy_js_or a b : truthy (js_or a b) = truthy a || truthy b.
Proof. unfold js_or. destruct (truthy a) eqn:Ha; [exact Ha | reflexivity]. Qed.

Lemma truthy_js_and a b : truthy (js_and a b) = truthy a && truthy b.
Proof. unfold js_and. destruct (truthy a) eqn:Ha; [reflexivity | exact Ha]. Qed.

Lemma truthy_fold_or l a :
  truthy (fold_left js_or l a) = truthy a || existsb truthy l.
Proof.
  revert a. induction l as [|b l IH]; simpl; intros a.
  - now rewrite orb_false_r.
  - now rewrite IH, truthy_js_or, orb_assoc.
Qed.

Lemma truthy_fold_and l a :
  truthy (fold_left js_and l a) = truthy a && forallb truthy l.
Proof.
  revert a. induction l as [|b l IH]; simpl; intros a.
  - now rewrite andb_true_r.
  - now rewrite IH, truthy_js_and, andb_assoc.
Qed.

Lemma fold_any_truthy this condition objs st :
  truthy (fst (fold_left (any_member this condition) objs st)) =
  truthy (fst st) || existsb (member_truthy false this condition) objs.
Proof.
  revert st. induction objs as [|o objs IH]; simpl; intros st.
  - now rewrite orb_false_r.
  - rewrite IH. unfold any_member, or_else, member_truthy, member_result.
    destruct (truthy (fst st)) eqn:Hst; simpl; [now rewrite Hst|].
    destruct (executeCondition _ _ _ _ _); simpl; [reflexivity | now rewrite Hst].
Qed.

Lemma fold_all_truthy this condition objs st :
  truthy (fst (fold_left (all_member this condition) objs st)) =
  truthy (fst st) && forallb (member_truthy true this condition) objs.
Proof.
  revert st. induction objs as [|o objs IH]; simpl; intros st.
  - now rewrite andb_true_r.
  - rewrite IH. unfold all_member, and_then, member_truthy, member_result.
    destruct (truthy (fst st)) eqn:Hst; simpl; [|now rewrite Hst].
    destruct (executeCondition _ _ _ _ _); simpl; [reflexivity | now rewrite Hst].
Qed.

(** X5: a condition on object 'any' is defined exactly when the condition
    can be evaluated on some entity of the entity set, and it then holds
    exactly when it holds on some entity; entities on which it throws are
    passed over. *)
Theorem any_fan_out_is_a_disjunction this conditionValue condition :
  Condition.object condition = "any" ->
  snd (evaluate this conditionValue condition) =
    existsb (fun objId => negb (fails_on this condition objId)) (compositionObjs this) /\
  truthy (fst (evaluate this conditionValue condition)) =
    existsb (member_truthy false this condition) (compositionObjs this).
Proof.
  intros Hobj. unfold evaluate. rewrite Hobj. cbn [String.eqb Ascii.eqb Bool.eqb].
  cbv iota. split.
  - rewrite fold_any_defined by (intros _; reflexivity). simpl.
    induction (compositionObjs this) as [|o l IH]; simpl; [reflexivity|].
    rewrite <- IH. now destruct (fails_on this condition o), (forallb _ l).
  - now rewrite fold_any_truthy.
Qed.

Lemma any_fan_out_is_a_disjunction_witness :
  Condition.object (on_x "any" "greaterThan" [VNum (num_of_Z 7)]) = "any" /\
  snd (evaluate evaluator_ACB VUndefined (on_x "any" "greaterThan" [VNum (num_of_Z 7)]))
    = true /\
  truthy (fst (evaluate evaluator_ACB VUndefined
                 (on_x "any" "greaterThan" [VNum (num_of_Z 7)]))) = true.
Proof.
  split; [reflexivity|].
  apply (any_fan_out_is_a_disjunction evaluator_ACB VUndefined
           (on_x "any" "greaterThan" [VNum (num_of_Z 7)]) eq_refl).
Defined.

(** X6: a condition on object 'all' is defined exactly when the condition
    can be evaluated on some entity of the entity set, and it holds exactly
    when it holds on every entity on which it can be evaluated; with an
    empty entity set, or when it throws on every entity, it stays
    undefined. *)
Theorem all_fan_out_is_a_conjunction this conditionValue condition :
  Condition.object condition = "all" ->
  snd (evaluate this conditionValue condition) =
    existsb (fun objId => negb (fails_on this condition objId)) (compositionObjs this) /\
  truthy (fst (evaluate this conditionValue condition)) =
    forallb (member_truthy true this condition) (compositionObjs this).
Proof.
  intros Hobj. unfold evaluate. rewrite Hobj. cbn [String.eqb Ascii.eqb Bool.eqb].
  cbv iota. split.
  - rewrite fold_all_defined by (intros _; reflexivity). simpl.
    induction (compositionObjs this) as [|o l IH]; simpl; [reflexivity|].
    rewrite <- IH. now destruct (fails_on this condition o), (forallb _ l).
  - now rewrite fold_all_truthy.
Qed.

Lemma all_fan_out_is_a_conjunction_witness :
  Condition.object (on_x "all" "greaterThan" [VNum (num_of_Z 3)]) = "all" /\
  snd (evaluate evaluator_ACB VUndefined (on_x "all" "greaterThan" [VNum (num_of_Z 3)]))
    = true /\
  truthy (fst (evaluate evaluator_ACB VUndefined
                 (on_x "all" "greaterThan" [VNum (num_of_Z 3)]))) = true.
Proof.
  split; [reflexivity|].
  apply (all_fan_out_is_a_conjunction evaluator_ACB VUndefined
           (on_x "all" "greaterThan" [VNum (num_of_Z 3)]) eq_refl).
Defined.

(** The value and definedness [step] works with are those of the
    condition evaluated on its own. *)
Lemma step_evaluate this mode st condition :
  step this mode st condition =
  let '(cv, cd) := evaluate this VUndefined condition in
  if cd then
    {| active :=
         let active1 :=
           if String.eqb mode "all" && negb (firstRuleEvaluated st) then VBool true
           else active st in
         if String.eqb mode "any" then js_or active1 cv
         else if String.eqb mode "all" then js_and active1 cv
         else active1;
       conditionValue := cv;
       conditionDefined := true;
       firstRuleEvaluated := true |}
  else
    {| active := active st;
       conditionValue := fst (evaluate this (conditionValue st) condition);
       conditionDefined := false;
       firstRuleEvaluated := firstRuleEvaluated st |}.
Proof.
  unfold step.
  destruct (evaluate_leftover this condition (conditionValue st) VUndefined) as [Hd Hv].
  destruct (evaluate this (conditionValue st) condition) as [cv cd].
  destruct (evaluate this VUndefined condition) as [cv' cd'].
  simpl in *. subst cd'. destruct cd; [|reflexivity].
  now rewrite <- (Hv eq_refl).
Qed.

Lemma fold_step_any this conditions st :
  active (fold_left (step this "any") conditions st) =
  fold_left js_or (defined_values this conditions) (active st).
Proof.
  revert st. induction conditions as [|c l IH]; intros st; [reflexivity|].
  cbn [fold_left defined_values flat_map]. rewrite IH, step_evaluate.
  fold (defined_values this l). rewrite fold_left_app.
  destruct (evaluate this VUndefined c) as [cv [|]]; reflexivity.
Qed.

Lemma fold_step_all this conditions st :
  active (fold_left (step this "all") conditions st) =
  match defined_values this conditions with
  | [] => active st
  | vals =>
      fold_left js_and vals (if firstRuleEvaluated st then active st else VBool true)
  end.
Proof.
  revert st. induction conditions as [|c l IH]; intros st; [reflexivity|].
  cbn [fold_left defined_values flat_map]. rewrite IH, step_evaluate.
  fold (defined_values this l).
  destruct (evaluate this VUndefined c) as [cv [|]]; cbn [app].
  - destruct (firstRuleEvaluated st), (defined_values this l); reflexivity.
  - reflexivity.
Qed.

Lemma execute_any_value this conditions :
  execute this (Some conditions) "any" =
  Return (fold_left js_or (defined_values this conditions) (VBool false)).
Proof.
  unfold execute. cbn [String.eqb Ascii.eqb Bool.eqb]. cbv iota.
  now rewrite fold_step_any.
Qed.

Lemma execute_all_value this conditions :
  execute this (Some conditions) "all" =
  Return (match defined_values this conditions with
          | [] => VBool false
          | vals => fold_left js_and vals (VBool true)
          end).
Proof.
  unfold execute. cbn [String.eqb Ascii.eqb Bool.eqb]. cbv iota.
  now rewrite fold_step_all.
Qed.

Lemma never_defined_defined_values this conditions :
  forallb (never_defined this) conditions =
  match defined_values this conditions with [] => true | _ => false end.
Proof.
  induction conditions as [|c l IH]; [reflexivity|].
  cbn [forallb defined_values flat_map]. fold (defined_values this l).
  rewrite IH. pose proof (evaluate_defined this VUndefined c) as Hd.
  destruct (evaluate this VUndefined c) as [cv cd]. simpl in Hd.
  destruct (never_defined this c); simpl in Hd; subst cd; reflexivity.
Qed.

Lemma truthy_all_value this conditions :
  truthy (match defined_values this conditions with
          | [] => VBool false
          | vals => fold_left js_and vals (VBool true)
          end) =
  negb (forallb (never_defined this) conditions) &&
  forallb truthy (defined_values this conditions).
Proof.
  rewrite never_defined_defined_values.
  destruct (defined_values this conditions) as [|v vals]; [reflexivity|].
  now rewrite truthy_fold_and.
Qed.

(** X7: in mode 'any' [execute] returns the disjunction ([||], from
    [false]) of the values of the conditions that are defined, in list
    order; so the rule set holds exactly when some defined condition holds,
    and conditions that stay undefined play no part. *)
Theorem execute_any_is_a_disjunction this conditions :
  execute this (Some conditions) "any" =
    Return (fold_left js_or (defined_values this conditions) (VBool false)) /\
  truthy (fold_left js_or (defined_values this conditions) (VBool false)) =
    existsb truthy (defined_values this conditions).
Proof.
  split; [apply execute_any_value | now rewrite truthy_fold_or].
Qed.

(** X8: in mode 'all' [execute] returns [false] when no condition is
    defined, and otherwise the conjunction ([&&], from [true]) of the
    values of the defined conditions, in list order; so the rule set holds
    exactly when at least one condition is defined and all defined ones
    hold. *)
Theorem execute_all_is_a_conjunction this conditions :
  execute this (Some conditions) "all" =
    Return (match defined_values this conditions with
            | [] => VBool false
            | vals => fold_left js_and vals (VBool true)
            end) /\
  truthy (match defined_values this conditions with
          | [] => VBool false
          | vals => fold_left js_and vals (VBool true)
          end) =
    negb (forallb (never_defined this) conditions) &&
    forallb truthy (defined_values this conditions).
Proof.
  split; [apply execute_all_value | apply truthy_all_value].
Qed.

Lemma fold_step_other_mode this mode conditions st :
  String.eqb mode "any" = false -> String.eqb mode "all" = false ->
  active (fold_left (step this mode) conditions st) = active st.
Proof.
  intros Hany Hall. revert st.
  induction conditions as [|c l IH]; intros st; [reflexivity|].
  cbn [fold_left]. rewrite IH. unfold step.
  destruct (evaluate this (conditionValue st) c) as [cv [|]]; [|reflexivity].
  cbn. now rewrite Hany, Hall.
Qed.

(** X9: for a mode other than 'any', 'all' and 'js', [execute] returns
    [false] whatever the conditions are. *)
Theorem execute_in_an_unknown_mode_is_false this conditions mode :
  mode <> "any" -> mode <> "all" -> mode <> "js" ->
  execute this conditions mode = Return (VBool false).
Proof.
  intros Hany Hall Hjs. apply String.eqb_neq in Hany, Hall, Hjs.
  unfold execute. rewrite Hjs. f_equal.
  now apply fold_step_other_mode.
Qed.

Lemma execute_in_an_unknown_mode_is_false_witness :
  "xor" <> "any" /\ "xor" <> "all" /\ "xor" <> "js" /\
  execute evaluator_AB (Some [on_x "A" "greaterThan" [VNum (num_of_Z 3)]]) "any"
    = Return (VBool true) /\
  execute evaluator_AB (Some [on_x "A" "greaterThan" [VNum (num_of_Z 3)]]) "xor"
    = Return (VBool false).
Proof.
  split; [discriminate|]. split; [discriminate|]. split; [discriminate|].
  split; [reflexivity|].
  apply (execute_in_an_unknown_mode_is_false evaluator_AB
           (Some [on_x "A" "greaterThan" [VNum (num_of_Z 3)]]) "xor");
    discriminate.
Defined.

Lemma existsb_Permutation {A} (p : A -> bool) l l' :
  Permutation l l' -> existsb p l = existsb p l'.
Proof.
  induction 1 as [|x l l' _ IH|x y l|l l' l'' _ IH1 _ IH2]; simpl.
  - reflexivity.
  - now rewrite IH.
  - now rewrite !orb_assoc, (orb_comm (p y)).
  - now rewrite IH1.
Qed.

Lemma forallb_Permutation {A} (p : A -> bool) l l' :
  Permutation l l' -> forallb p l = forallb p l'.
Proof.
  induction 1 as [|x l l' _ IH|x y l|l l' l'' _ IH1 _ IH2]; simpl.
  - reflexivity.
  - now rewrite IH.
  - now rewrite !andb_assoc, (andb_comm (p y)).
  - now rewrite IH1.
Qed.

(** X10: whether a rule set holds in mode 'any' or 'all' does not depend
    on the order of its conditions: two lists that are permutations of one
    another give results of the same truth value. *)
Theorem execute_truth_is_order_independent this conditions conditions' mode :
  Permutation conditions conditions' ->
  mode = "any" \/ mode = "all" ->
  exists v v',
    execute this (Some conditions) mode = Return v /\
    execute this (Some conditions') mode = Return v' /\
    truthy v = truthy v'.
Proof.
  intros Hperm Hmode.
  pose proof (Permutation_flat_map
                (fun condition =>
                   let '(cv, cd) := evaluate this VUndefined condition in
                   if cd then [cv] else []) Hperm) as Hvals.
  fold (defined_values this conditions) in Hvals.
  fold (defined_values this conditions') in Hvals.
  destruct Hmode as [-> | ->].
  - do 2 eexists. split; [apply execute_any_value|]. split; [apply execute_any_value|].
    rewrite !truthy_fold_or. cbn. now apply existsb_Permutation.
  - do 2 eexists. split; [apply execute_all_value|]. split; [apply execute_all_value|].
    rewrite !truthy_all_value. f_equal; [f_equal|]; now apply forallb_Permutation.
Qed.

Lemma execute_truth_is_order_independent_witness :
  Permutation
    [on_x "A" "greaterThan" [VNum (num_of_Z 7)]; on_x "B" "greaterThan" [VNum (num_of_Z 7)]]
    [on_x "B" "greaterThan" [VNum (num_of_Z 7)]; on_x "A" "greaterThan" [VNum (num_of_Z 7)]] /\
  ("any" = "any" \/ "any" = "all") /\
  exists v v',
    execute evaluator_AB
      (Some [on_x "A" "greaterThan" [VNum (num_of_Z 7)];
             on_x "B" "greaterThan" [VNum (num_of_Z 7)]]) "any" = Return v /\
    execute evaluator_AB
      (Some [on_x "B" "greaterThan" [VNum (num_of_Z 7)];
             on_x "A" "greaterThan" [VNum (num_of_Z 7)]]) "any" = Return v' /\
    truthy v = truthy v'.
Proof.
  split; [apply perm_swap|]. split; [left; reflexivity|].
  apply (execute_truth_is_order_independent evaluator_AB _ _ "any");
    [apply perm_swap | left; reflexivity].
Defined.

(** ** Further properties of the operations *)

Lemma SFcompare_defined a b :
  isNaN a = false -> isNaN b = false -> exists c, SFcompare a b = Some c.
Proof.
  destruct a, b; simpl; intros Ha Hb; try discriminate; eauto.
Qed.

Lemma SFcompare_NaN a b :
  isNaN a = true \/ isNaN b = true -> SFcompare a b = None.
Proof.
  destruct a, b; simpl; intros [H|H]; try discriminate; reflexivity.
Qed.

Lemma telemetryValue_number this object key v :
  cache_value (cache this) object key = Some (VNum v) ->
  telemetryValue this object key = Some [VNum v].
Proof.
  intros Hc. rewrite (telemetryValue_cached _ _ _ _ Hc) by discriminate.
  simpl. destruct (isNaN v); reflexivity.
Qed.

(** The result of a library entry on a numeric field and numeric
    comparison values. *)
Lemma executeCondition_numbers this object key opKey o v xs :
  get operations opKey = Some o ->
  Operation.appliesTo o = ["number"] ->
  cache_value (cache this) object key = Some (VNum v) ->
  executeCondition this object key opKey (map VNum xs) =
  Operation.operation o (VNum v :: map VNum xs).
Proof.
  intros Hop Happ Hc.
  rewrite (executeCondition_resolved _ _ _ _ _ o _ Hop (telemetryValue_number _ _ _ _ Hc)).
  unfold validation. rewrite Happ. cbn -[validateNumberInput].
  assert (Hv : validateNumberInput (VNum v :: map VNum xs) = true).
  { unfold validateNumberInput. rewrite fold_and_forallb. cbn.
    apply forallb_forall. intros w Hin.
    apply in_map_iff in Hin as (n & <- & _). reflexivity. }
  now rewrite Hv.
Qed.

(** Rewrite the call of a numeric entry on a numeric field. *)
Ltac numeric_call opKey o xs Hc :=
  let H := fresh in
  pose proof (executeCondition_numbers _ _ _ opKey o _ xs eq_refl eq_refl Hc) as H;
  cbn [map] in H; rewrite H; clear H.

(** X11: on a numeric field and numeric bounds, [between] and
    [notBetween] never both hold; when none of the three numbers is NaN
    and neither holds, the field value equals one of the bounds. *)
Theorem between_and_notBetween_leave_only_the_bounds this object key v x1 x2 :
  cache_value (cache this) object key = Some (VNum v) ->
  exists b nb,
    executeCondition this object key "between" [VNum x1; VNum x2] = Return (VBool b) /\
    executeCondition this object key "notBetween" [VNum x1; VNum x2] = Return (VBool nb) /\
    b && nb = false /\
    (isNaN v = false -> isNaN x1 = false -> isNaN x2 = false ->
     b || nb = false -> SFeqb v x1 = true \/ SFeqb v x2 = true).
Proof.
  intros Hc.
  exists (SFltb x1 v && SFltb v x2), (SFltb v x1 || SFltb x2 v).
  split; [exact (executeCondition_numbers this object key "between" between v [x1; x2]
                   eq_refl eq_refl Hc)|].
  split; [exact (executeCondition_numbers this object key "notBetween" notBetween v
                   [x1; x2] eq_refl eq_refl Hc)|].
  unfold SFltb, SFeqb. rewrite (SFcompare_swap x1 v), (SFcompare_swap x2 v). split.
  - destruct (SFcompare v x1) as [[| |]|], (SFcompare v x2) as [[| |]|]; reflexivity.
  - intros Hv H1 H2.
    destruct (SFcompare_defined v x1 Hv H1) as [c1 ->].
    destruct (SFcompare_defined v x2 Hv H2) as [c2 ->].
    destruct c1, c2; simpl; auto; discriminate.
Qed.

Lemma between_and_notBetween_leave_only_the_bounds_witness :
  cache_value (cache evaluator_AB) "B" "x" = Some (VNum (num_of_Z 10)) /\
  exists b nb,
    executeCondition evaluator_AB "B" "x" "between"
      [VNum (num_of_Z 5); VNum (num_of_Z 10)] = Return (VBool b) /\
    executeCondition evaluator_AB "B" "x" "notBetween"
      [VNum (num_of_Z 5); VNum (num_of_Z 10)] = Return (VBool nb) /\
    b && nb = false /\
    (isNaN (num_of_Z 10) = false -> isNaN (num_of_Z 5) = false ->
     isNaN (num_of_Z 10) = false ->
     b || nb = false ->
     SFeqb (num_of_Z 10) (num_of_Z 5) = true \/ SFeqb (num_of_Z 10) (num_of_Z 10) = true).
Proof.
  split; [reflexivity|].
  apply (between_and_notBetween_leave_only_the_bounds evaluator_AB "B" "x"
           (num_of_Z 10) (num_of_Z 5) (num_of_Z 10)).
  reflexivity.
Defined.

(** X12: on a numeric field v and a numeric comparison value x the six
    comparisons agree with one another: [greaterThanOrEq] is
    [greaterThan] or [equalTo], [lessThanOrEq] is [lessThan] or [equalTo],
    [notEqualTo] is the negation of [equalTo]; when neither number is NaN
    exactly one of [lessThan], [equalTo], [greaterThan] holds, and when one
    is NaN none of them does. *)
Theorem numeric_comparisons_agree this object key v x :
  cache_value (cache this) object key = Some (VNum v) ->
  exists l e g,
    executeCondition this object key "lessThan" [VNum x] = Return (VBool l) /\
    executeCondition this object key "equalTo" [VNum x] = Return (VBool e) /\
    executeCondition this object key "greaterThan" [VNum x] = Return (VBool g) /\
    executeCondition this object key "lessThanOrEq" [VNum x] = Return (VBool (l || e)) /\
    executeCondition this object key "greaterThanOrEq" [VNum x] = Return (VBool (g || e)) /\
    executeCondition this object key "notEqualTo" [VNum x] = Return (VBool (negb e)) /\
    (isNaN v = false -> isNaN x = false ->
     (l, e, g) = (true, false, false) \/ (l, e, g) = (false, true, false) \/
     (l, e, g) = (false, false, true)) /\
    (isNaN v = true \/ isNaN x = true -> (l, e, g) = (false, false, false)).
Proof.
  intros Hc. exists (SFltb v x), (SFeqb v x), (SFltb x v).
  numeric_call "lessThan" lessThan [x] Hc.
  numeric_call "equalTo" equalTo [x] Hc.
  numeric_call "greaterThan" greaterThan [x] Hc.
  numeric_call "lessThanOrEq" lessThanOrEq [x] Hc.
  numeric_call "greaterThanOrEq" greaterThanOrEq [x] Hc.
  numeric_call "notEqualTo" notEqualTo [x] Hc.
  cbn. unfold ge, le, gt, lt. cbn. unfold SFleb, SFltb, SFeqb.
  rewrite (SFcompare_swap x v).
  repeat split.
  - destruct (SFcompare v x) as [[| |]|]; reflexivity.
  - destruct (SFcompare v x) as [[| |]|]; reflexivity.
  - intros Hv Hx. destruct (SFcompare_defined v x Hv Hx) as [c ->].
    destruct c; simpl; auto.
  - intros Hn. now rewrite (SFcompare_NaN v x Hn).
Qed.

Lemma numeric_comparisons_agree_witness :
  cache_value (cache evaluator_AB) "A" "x" = Some (VNum (num_of_Z 5)) /\
  executeCondition evaluator_AB "A" "x" "lessThan" [VNum (num_of_Z 7)]
    = Return (VBool true) /\
  executeCondition evaluator_AB "A" "x" "greaterThanOrEq" [VNum (num_of_Z 7)]
    = Return (VBool false).
Proof.
  split; [reflexivity|].
  destruct (numeric_comparisons_agree evaluator_AB "A" "x" (num_of_Z 5) (num_of_Z 7)
              eq_refl) as (l & e & g & Hl & He & Hg & _ & Hge & _).
  split; [reflexivity|]. rewrite Hge.
  rewrite (eq_refl : executeCondition evaluator_AB "A" "x" "equalTo" [VNum (num_of_Z 7)]
                     = Return (VBool false)) in He.
  rewrite (eq_refl : executeCondition evaluator_AB "A" "x" "greaterThan"
                       [VNum (num_of_Z 7)] = Return (VBool false)) in Hg.
  injection He as <-. injection Hg as <-. reflexivity.
Defined.

(** X13: the enum operations are the numeric equality tests under other
    names: [enumValueIs] behaves as [equalTo] and [enumValueIsNot] as
    [notEqualTo] on every field and every list of comparison values. *)
Theorem enum_operations_are_numeric_equality this object key values :
  executeCondition this object key "enumValueIs" values =
  executeCondition this object key "equalTo" values /\
  executeCondition this object key "enumValueIsNot" values =
  executeCondition this object key "notEqualTo" values.
Proof.
  destruct (telemetryValue this object key) as [t|] eqn:Ht.
  - rewrite (executeCondition_resolved this object key "enumValueIs" _ enumValueIs _
               eq_refl Ht).
    rewrite (executeCondition_resolved this object key "equalTo" _ equalTo _ eq_refl Ht).
    rewrite (executeCondition_resolved this object key "enumValueIsNot" _ enumValueIsNot _
               eq_refl Ht).
    rewrite (executeCondition_resolved this object key "notEqualTo" _ notEqualTo _
               eq_refl Ht).
    split; reflexivity.
  - rewrite !executeCondition_absent by assumption. split; reflexivity.
Qed.

(** X14: the number of comparison values is not checked.  On a numeric
    field with no comparison values the missing operands read as undefined:
    [notEqualTo] answers [true] and the other seven numeric operations
    [false]; [between] with its upper bound missing answers [false]. *)
Theorem missing_comparison_values_read_as_undefined this object key v :
  cache_value (cache this) object key = Some (VNum v) ->
  executeCondition this object key "notEqualTo" [] = Return (VBool true) /\
  (forall opKey,
      In opKey ["equalTo"; "greaterThan"; "lessThan"; "greaterThanOrEq";
                "lessThanOrEq"; "between"; "notBetween"] ->
      executeCondition this object key opKey [] = Return (VBool false)) /\
  (forall x1, executeCondition this object key "between" [VNum x1] = Return (VBool false)).
Proof.
  intros Hc.
  assert (Hnan : forall a, SFcompare a NaN = None) by (intros a; now destruct a).
  split; [|split].
  - exact (executeCondition_numbers this object key "notEqualTo" notEqualTo v []
             eq_refl eq_refl Hc).
  - intros opKey Hin. simpl in Hin.
    repeat (destruct Hin as [<-|Hin]); try contradiction.
    + exact (executeCondition_numbers this object key "equalTo" equalTo v []
               eq_refl eq_refl Hc).
    + numeric_call "greaterThan" greaterThan (@nil spec_float) Hc. reflexivity.
    + numeric_call "lessThan" lessThan (@nil spec_float) Hc.
      cbn. unfold lt. cbn. unfold SFltb. now rewrite Hnan.
    + numeric_call "greaterThanOrEq" greaterThanOrEq (@nil spec_float) Hc. reflexivity.
    + numeric_call "lessThanOrEq" lessThanOrEq (@nil spec_float) Hc.
      cbn. unfold le. cbn. unfold SFleb. now rewrite Hnan.
    + numeric_call "between" between (@nil spec_float) Hc. reflexivity.
    + numeric_call "notBetween" notBetween (@nil spec_float) Hc.
      cbn. unfold lt. cbn. unfold SFltb. now rewrite Hnan.
  - intros x1.
    numeric_call "between" between [x1] Hc.
    cbn. unfold gt, lt. cbn. unfold SFltb. now rewrite Hnan, andb_false_r.
Qed.

Lemma missing_comparison_values_read_as_undefined_witness :
  cache_value (cache evaluator_AB) "A" "x" = Some (VNum (num_of_Z 5)) /\
  executeCondition evaluator_AB "A" "x" "notEqualTo" [] = Return (VBool true) /\
  executeCondition evaluator_AB "A" "x" "lessThan" [] = Return (VBool false).
Proof.
  split; [reflexivity|].
  destruct (missing_comparison_values_read_as_undefined evaluator_AB "A" "x"
              (num_of_Z 5) eq_refl) as (Hne & Hall & _).
  split; [exact Hne|]. apply Hall. simpl. auto.
Defined.

(** *** Text operations *)

Lemma append_cons c s t : String c s ++ t = String c (s ++ t).
Proof. reflexivity. Qed.

Lemma append_empty t : "" ++ t = t.
Proof. reflexivity. Qed.

Lemma prefix_iff t s :
  String.prefix t s = true <-> exists post, s = t ++ post.
Proof.
  revert s. induction t as [|a t IH]; intros s.
  - split; [intros _; exists s; reflexivity | intros _; now destruct s].
  - destruct s as [|b s]; simpl.
    + split; [discriminate | intros [post H]; discriminate].
    + destruct (Ascii.ascii_dec a b) as [->|Hne].
      * rewrite IH. split; intros [post H]; exists post;
          rewrite append_cons in *; [now rewrite H | now injection H].
      * split; [discriminate | intros [post H]; rewrite append_cons in H; congruence].
Qed.

Lemma includes_iff s t :
  includes s t = true <-> exists pre post, s = pre ++ t ++ post.
Proof.
  induction s as [|c s IH].
  - cbn [includes]. rewrite orb_false_r, prefix_iff. split.
    + intros [post H]. exists "", post. exact H.
    + intros (pre & post & H). destruct pre; [eauto | discriminate].
  - cbn [includes]. rewrite orb_true_iff, prefix_iff, IH. split.
    + intros [[post H]|(pre & post & H)].
      * exists "", post. exact H.
      * exists (String c pre), post. rewrite append_cons. now rewrite H.
    + intros (pre & post & H). destruct pre as [|c' pre].
      * left. eauto.
      * right. rewrite append_cons in H. injection H as _ H. eauto.
Qed.

Lemma string_length_app s1 s2 :
  String.length (s1 ++ s2) = (String.length s1 + String.length s2)%nat.
Proof.
  induction s1 as [|c s1 IH]; [reflexivity|].
  rewrite append_cons. simpl. now rewrite IH.
Qed.

Lemma substring_whole s : String.substring 0 (String.length s) s = s.
Proof. induction s as [|c s IH]; simpl; [reflexivity | now rewrite IH]. Qed.

Lemma substring_app_r pre t :
  String.substring (String.length pre) (String.length t) (pre ++ t) = t.
Proof.
  induction pre as [|c pre IH]; [apply substring_whole|].
  rewrite append_cons. exact IH.
Qed.

Lemma substring_split s n :
  (n <= String.length s)%nat ->
  s = String.substring 0 n s ++ String.substring n (String.length s - n) s.
Proof.
  revert n. induction s as [|c s IH]; intros n Hn.
  - destruct n; [reflexivity | simpl in Hn; lia].
  - destruct n as [|n].
    + simpl. now rewrite substring_whole.
    + simpl in Hn. simpl. rewrite append_cons. f_equal. apply IH. lia.
Qed.

Lemma endsWith_iff s t :
  endsWith s t = true <-> exists pre, s = pre ++ t.
Proof.
  unfold endsWith. rewrite andb_true_iff, Nat.leb_le, String.eqb_eq. split.
  - intros [Hle Hsub]. exists (String.substring 0 (String.length s - String.length t) s).
    pose proof (substring_split s (String.length s - String.length t) ltac:(lia))
      as Hsplit.
    replace (String.length s - (String.length s - String.length t))%nat
      with (String.length t) in Hsplit by lia.
    now rewrite Hsub in Hsplit.
  - intros [pre ->]. rewrite string_length_app. split; [lia|].
    replace (String.length pre + String.length t - String.length t)%nat
      with (String.length pre) by lia.
    apply substring_app_r.
Qed.

Lemma telemetryValue_text this object key s :
  cache_value (cache this) object key = Some (VStr s) ->
  isNaN (StringToNumber s) = true ->
  telemetryValue this object key = Some [VStr s].
Proof.
  intros Hc Hn. rewrite (telemetryValue_cached _ _ _ _ Hc) by discriminate.
  cbn [Number]. now rewrite Hn.
Qed.

(** The result of a text entry on a field holding a text that is not a
    number, and a text as comparison value. *)
Lemma executeCondition_texts this object key opKey o s t :
  get operations opKey = Some o ->
  Operation.appliesTo o = ["string"] ->
  cache_value (cache this) object key = Some (VStr s) ->
  isNaN (StringToNumber s) = true ->
  executeCondition this object key opKey [VStr t] =
  Operation.operation o [VStr s; VStr t].
Proof.
  intros Hop Happ Hc Hn.
  rewrite (executeCondition_resolved _ _ _ _ _ o _ Hop (telemetryValue_text _ _ _ _ Hc Hn)).
  unfold validation. now rewrite Happ.
Qed.

(** X15: on a field whose cached value is a text s that does not convert
    to a number, and with a text t as comparison value, [textIsExactly]
    holds exactly when s is t, [textStartsWith] when t is a prefix of s,
    [textEndsWith] when t is a suffix of s, [textContains] when t is not
    empty and occurs in s, and [textDoesNotContain] when t is not empty and
    does not occur in s. *)
Theorem text_operations_compare_texts this object key s t :
  cache_value (cache this) object key = Some (VStr s) ->
  isNaN (StringToNumber s) = true ->
  (executeCondition this object key "textIsExactly" [VStr t] = Return (VBool true)
   <-> s = t) /\
  (executeCondition this object key "textStartsWith" [VStr t] = Return (VBool true)
   <-> exists post, s = t ++ post) /\
  (executeCondition this object key "textEndsWith" [VStr t] = Return (VBool true)
   <-> exists pre, s = pre ++ t) /\
  (executeCondition this object key "textContains" [VStr t] = Return (VBool true)
   <-> t <> "" /\ exists pre post, s = pre ++ t ++ post) /\
  (executeCondition this object key "textDoesNotContain" [VStr t] = Return (VBool true)
   <-> t <> "" /\ ~ exists pre post, s = pre ++ t ++ post).
Proof.
  intros Hc Hn.
  rewrite (executeCondition_texts this object key "textIsExactly" textIsExactly s t
             eq_refl eq_refl Hc Hn).
  rewrite (executeCondition_texts this object key "textStartsWith" textStartsWith s t
             eq_refl eq_refl Hc Hn).
  rewrite (executeCondition_texts this object key "textEndsWith" textEndsWith s t
             eq_refl eq_refl Hc Hn).
  rewrite (executeCondition_texts this object key "textContains" textContains s t
             eq_refl eq_refl Hc Hn).
  rewrite (executeCondition_texts this object key "textDoesNotContain" textDoesNotContain
             s t eq_refl eq_refl Hc Hn).
  assert (Hs : truthy (VStr s) = true).
  { destruct s; [cbv in Hn; discriminate | reflexivity]. }
  rewrite <- includes_iff, <- prefix_iff, <- endsWith_iff, <- String.eqb_eq.
  cbn [Operation.operation textIsExactly textStartsWith textEndsWith textContains
         textDoesNotContain index nth strict_eq call_string_method ToString].
  unfold and_then, negate, bind. rewrite Hs. cbn [bind]. unfold startsWith.
  assert (Hiff : forall b : bool,
             @Return Value (VBool b) = Return (VBool true) <-> b = true).
  { intros b. split; [intros H; now injection H | intros ->; reflexivity]. }
  split; [apply Hiff|]. split; [apply Hiff|]. split; [apply Hiff|].
  split.
  - destruct t as [|d t].
    + split; [discriminate | intros [Ht _]; contradiction Ht; reflexivity].
    + cbn [truthy String.eqb negb]. rewrite Hiff.
      split; [intros H; split; [discriminate | exact H] | intros [_ H]; exact H].
  - destruct t as [|d t].
    + split; [discriminate | intros [Ht _]; contradiction Ht; reflexivity].
    + cbn [truthy String.eqb negb]. rewrite Hiff.
      destruct (includes s (String d t)); cbn; split.
      * discriminate.
      * intros [_ H]. contradiction H. reflexivity.
      * intros _. split; discriminate.
      * reflexivity.
Qed.

Lemma text_operations_compare_texts_witness :
  cache_value (cache (evaluator_A (VStr "hello"))) "A" "x" = Some (VStr "hello") /\
  isNaN (StringToNumber "hello") = true /\
  (executeCondition (evaluator_A (VStr "hello")) "A" "x" "textEndsWith" [VStr "llo"]
     = Return (VBool true)
   <-> exists pre, "hello" = pre ++ "llo").
Proof.
  split; [reflexivity|]. split; [reflexivity|].
  apply (text_operations_compare_texts (evaluator_A (VStr "hello")) "A" "x" "hello" "llo"
           eq_refl eq_refl).
Defined.

(** ** Further properties of the accessors *)



(** ** Properties of [getLatestTelemetry] *)

Lemma SFltb_trans a b c :
  SFltb a b = true -> SFltb b c = true -> SFltb a c = true.
Proof.
  unfold SFltb.
  destruct a as [sa|sa| |sa ma ea], b as [sb|sb| |sb mb eb], c as [sc|sc| |sc mc ec];
    simpl; try discriminate; try reflexivity;
    try (destruct sa; try discriminate; try reflexivity);
    try (destruct sb; try discriminate; try reflexivity);
    try (destruct sc; try discriminate; try reflexivity).
  all: change (Pos.compare_cont Eq) with Pos.compare.
  all: destruct (Z.compare_spec ea eb); try discriminate;
       destruct (Z.compare_spec eb ec); try discriminate;
       destruct (Z.compare_spec ea ec); try reflexivity; try lia; subst;
       try (destruct (Pos.compare_spec ma mb); try discriminate;
            destruct (Pos.compare_spec mb mc); try discriminate;
            destruct (Pos.compare_spec ma mc); try reflexivity; lia);
       try (destruct (Pos.compare_spec ma mb); discriminate);
       try (destruct (Pos.compare_spec mb mc); discriminate).
Qed.

(** Of two numbers one of which is below the other, any third number that
    is not NaN is above the lower or below the higher one. *)
Lemma SFltb_between a b c :
  isNaN b = false -> SFltb c a = true -> SFltb c b = true \/ SFltb b a = true.
Proof.
  intros Hb Hca.
  assert (Ha : isNaN a = false).
  { destruct a; try reflexivity. unfold SFltb in Hca. now destruct c. }
  destruct (SFcompare_defined b a Hb Ha) as [x Hx].
  destruct x.
  - left. rewrite <- Hca. symmetry. apply SFltb_eq_r.
    unfold SFeqb. rewrite (SFcompare_swap a b), Hx. reflexivity.
  - right. unfold SFltb. now rewrite Hx.
  - left. apply (SFltb_trans c a b Hca). unfold SFltb.
    rewrite (SFcompare_swap a b), Hx. reflexivity.
Qed.

Lemma later_numbers k a b na nb :
  time_of k a = Some na -> time_of k b = Some nb -> later k a b = SFltb nb na.
Proof.
  unfold time_of, later, gt, lt. intros Ha Hb.
  destruct (property a k); try discriminate. destruct (property b k); try discriminate.
  destruct (isNaN n); [discriminate|]. destruct (isNaN n0); [discriminate|].
  injection Ha as <-. injection Hb as <-. reflexivity.
Qed.

Lemma time_of_not_NaN k a n : time_of k a = Some n -> isNaN n = false.
Proof.
  unfold time_of. destruct (property a k); try discriminate.
  destruct (isNaN n0) eqn:Hn; [discriminate|]. intros H; injection H as <-. exact Hn.
Qed.

(** If [x] is not later than [r] and [r] is not later than [c], then [x]
    is not later than [c]; times are numbers. *)
Lemma not_later_trans k x r c :
  time_of k x <> None -> time_of k r <> None -> time_of k c <> None ->
  later k x r = false -> later k r c = false -> later k x c = false.
Proof.
  intros Hx Hr Hc.
  destruct (time_of k x) as [nx|] eqn:Ex; [|contradiction].
  destruct (time_of k r) as [nr|] eqn:Er; [|contradiction].
  destruct (time_of k c) as [nc|] eqn:Ec; [|contradiction].
  rewrite (later_numbers k x r nx nr Ex Er), (later_numbers k r c nr nc Er Ec),
    (later_numbers k x c nx nc Ex Ec).
  intros Hxr Hrc. destruct (SFltb nc nx) eqn:Hcx; [|reflexivity].
  destruct (SFltb_between nx nr nc (time_of_not_NaN _ _ _ Er) Hcx); congruence.
Qed.

(** If [x] is earlier than [r] and [r] is not later than [c], then [x] is
    not later than [c]. *)
Lemma earlier_not_later k x r c :
  time_of k x <> None -> time_of k r <> None -> time_of k c <> None ->
  later k r x = true -> later k r c = false -> later k x c = false.
Proof.
  intros Hx Hr Hc.
  destruct (time_of k x) as [nx|] eqn:Ex; [|contradiction].
  destruct (time_of k r) as [nr|] eqn:Er; [|contradiction].
  destruct (time_of k c) as [nc|] eqn:Ec; [|contradiction].
  rewrite (later_numbers k r x nr nx Er Ex), (later_numbers k r c nr nc Er Ec),
    (later_numbers k x c nx nc Ex Ec).
  intros Hxr Hrc. destruct (SFltb nc nx) eqn:Hcx; [|reflexivity].
  destruct (SFltb_between nx nr nc (time_of_not_NaN _ _ _ Er) Hcx) as [H|H];
    [congruence|].
  unfold SFltb in Hxr, H. rewrite (SFcompare_swap nr nx) in H.
  destruct (SFcompare nx nr) as [[| |]|]; discriminate.
Qed.

Lemma fold_latest k rest :
  forall before r after,
    Forall (fun d => time_of k d <> None) (before ++ r :: after ++ rest) ->
    (forall x, In x before -> later k x r = false) ->
    (forall x, In x after -> later k r x = true) ->
    exists before' after',
      (before ++ r :: after ++ rest)%list =
      (before' ++ fold_left (fun prev cur => if later k prev cur then prev else cur) rest r
         :: after')%list /\
      (forall x, In x before' ->
         later k x (fold_left (fun prev cur => if later k prev cur then prev else cur)
                      rest r) = false) /\
      (forall x, In x after' ->
         later k (fold_left (fun prev cur => if later k prev cur then prev else cur)
                    rest r) x = true).
Proof.
  induction rest as [|c rest IH]; intros before r after Hall Hb Ha.
  - exists before, after. rewrite app_nil_r. auto.
  - cbn [fold_left]. destruct (later k r c) eqn:Hrc.
    + destruct (IH before r (after ++ [c])%list) as (b' & a' & E & Hb' & Ha').
      * now rewrite <- app_assoc.
      * exact Hb.
      * intros x Hx. apply in_app_iff in Hx as [Hx|[<-|[]]]; auto.
      * exists b', a'. rewrite <- E, <- app_assoc. auto.
    + rewrite List.Forall_forall in Hall.
      assert (Hr : time_of k r <> None) by (apply Hall, in_app_iff; right; left; auto).
      assert (Hc : time_of k c <> None).
      { apply Hall, in_app_iff. right. right. apply in_app_iff. right. left. auto. }
      destruct (IH (before ++ r :: after)%list c []) as (b' & a' & E & Hb' & Ha').
      * apply List.Forall_forall. intros x Hx. apply Hall.
        rewrite <- app_assoc in Hx. exact Hx.
      * intros x Hx. apply in_app_iff in Hx as [Hx|[<-|Hx]].
        -- apply (not_later_trans k x r c); auto.
           apply Hall, in_app_iff. auto.
        -- exact Hrc.
        -- apply (earlier_not_later k x r c); auto.
           apply Hall, in_app_iff. right. right. apply in_app_iff. auto.
      * intros x [].
      * exists b', a'. rewrite <- E, <- app_assoc. auto.
Qed.

(** X17: [getLatestTelemetry] returns the empty array exactly for an empty
    list of data, and otherwise one of the data of the list. *)
Theorem getLatestTelemetry_picks_a_datum telemetry timeFormat :
  (getLatestTelemetry telemetry timeFormat = None <-> telemetry = []) /\
  (forall d, getLatestTelemetry telemetry timeFormat = Some d -> In d telemetry).
Proof.
  unfold getLatestTelemetry. destruct telemetry as [|first rest].
  - split; [tauto | discriminate].
  - split; [split; discriminate|]. intros d H. injection H as <-.
    generalize first. induction rest as [|c rest IH]; intros r; [now left|].
    cbn [fold_left]. match goal with |- context [if ?b then _ else _] => destruct b end.
    + destruct (IH r) as [<-|H]; [now left | now right; right].
    + right. destruct (IH c) as [<-|H]; [now left | now right].
Qed.

(** X18: when the time of every datum is a number other than NaN,
    [getLatestTelemetry] returns the last of the data with the greatest
    time: no datum before it in the list is later in time, and every datum
    after it is strictly earlier. *)
Theorem getLatestTelemetry_is_the_last_greatest telemetry timeFormat d :
  Forall (fun datum => time_of (time_key timeFormat) datum <> None) telemetry ->
  getLatestTelemetry telemetry timeFormat = Some d ->
  exists before after,
    telemetry = (before ++ d :: after)%list /\
    (forall x, In x before -> later (time_key timeFormat) x d = false) /\
    (forall x, In x after -> later (time_key timeFormat) d x = true).
Proof.
  intros Hall H. unfold getLatestTelemetry in H. fold (time_key timeFormat) in H.
  destruct telemetry as [|first rest]; [discriminate|]. injection H as <-.
  destruct (fold_latest (time_key timeFormat) rest [] first [])
    as (b & a & E & Hb & Ha); [exact Hall | intros x [] | intros x [] |].
  exists b, a. auto.
Qed.

Lemma getLatestTelemetry_is_the_last_greatest_witness :
  Forall (fun datum => time_of (time_key None) datum <> None) three_data /\
  getLatestTelemetry three_data None = Some (datum_at "third" 3) /\
  exists before after,
    three_data = (before ++ datum_at "third" 3 :: after)%list /\
    (forall x, In x before -> later (time_key None) x (datum_at "third" 3) = false) /\
    (forall x, In x after -> later (time_key None) (datum_at "third" 3) x = true).
Proof.
  assert (Hall : Forall (fun datum => time_of (time_key None) datum <> None) three_data).
  { repeat constructor; discriminate. }
  split; [exact Hall|]. split; [reflexivity|].
  apply (getLatestTelemetry_is_the_last_greatest three_data None (datum_at "third" 3) Hall).
  reflexivity.
Defined.

(** X19: a last datum without a value under the time key is returned
    whatever the times of the data before it. *)
Theorem getLatestTelemetry_returns_a_last_datum_without_time telemetry timeFormat d :
  property d (time_key timeFormat) = VUndefined ->
  getLatestTelemetry (telemetry ++ [d]) timeFormat = Some d.
Proof.
  intros Hd. unfold getLatestTelemetry. fold (time_key timeFormat).
  destruct telemetry as [|first rest]; [reflexivity|].
  cbn [app]. rewrite fold_left_app. cbn [fold_left]. rewrite Hd.
  unfold gt, lt. cbn [Number]. now destruct (property _ _).
Qed.

Lemma getLatestTelemetry_returns_a_last_datum_without_time_witness :
  property {[ "name" := VStr "untimed" ]} (time_key None) = VUndefined /\
  getLatestTelemetry (three_data ++ [{[ "name" := VStr "untimed" ]}]) None
    = Some {[ "name" := VStr "untimed" ]}.
Proof.
  split; [reflexivity|].
  apply (getLatestTelemetry_returns_a_last_datum_without_time three_data None
           {[ "name" := VStr "untimed" ]}).
  reflexivity.
Defined.

(** ** Further properties of value resolution and fan-out *)

Lemma executeCondition_same_operand this this' object object' key key' opKey values :
  telemetryValue this object key = telemetryValue this' object' key' ->
  executeCondition this object key opKey values =
  executeCondition this' object' key' opKey values.
Proof. intros H. unfold executeCondition. now rewrite H. Qed.

(** X20: two cached values that convert to the same number (not NaN) are
    indistinguishable: a field stored as the text "42", as the number 42 or
    as any other value with that conversion gives the same result for
    every operation and every list of comparison values. *)
Theorem values_with_the_same_number_are_indistinguishable
  this this' object object' key key' v v' :
  cache_value (cache this) object key = Some v ->
  cache_value (cache this') object' key' = Some v' ->
  v <> VUndefined -> v' <> VUndefined ->
  isNaN (Number v) = false ->
  Number v = Number v' ->
  forall opKey values,
    executeCondition this object key opKey values =
    executeCondition this' object' key' opKey values.
Proof.
  intros Hc Hc' Hv Hv' Hn Heq opKey values.
  apply executeCondition_same_operand.
  rewrite (telemetryValue_cached _ _ _ _ Hc Hv), (telemetryValue_cached _ _ _ _ Hc' Hv').
  now rewrite <- Heq, Hn.
Qed.

Lemma values_with_the_same_number_are_indistinguishable_witness :
  cache_value (cache (evaluator_A (VStr " 4.2e1 "))) "A" "x" = Some (VStr " 4.2e1 ") /\
  cache_value (cache (evaluator_A (VNum (num_of_Z 42)))) "A" "x"
    = Some (VNum (num_of_Z 42)) /\
  isNaN (Number (VStr " 4.2e1 ")) = false /\
  Number (VStr " 4.2e1 ") = Number (VNum (num_of_Z 42)) /\
  forall opKey values,
    executeCondition (evaluator_A (VStr " 4.2e1 ")) "A" "x" opKey values =
    executeCondition (evaluator_A (VNum (num_of_Z 42))) "A" "x" opKey values.
Proof.
  split; [reflexivity|]. split; [reflexivity|]. split; [reflexivity|].
  split; [reflexivity|].
  apply (values_with_the_same_number_are_indistinguishable
           (evaluator_A (VStr " 4.2e1 ")) (evaluator_A (VNum (num_of_Z 42)))
           "A" "A" "x" "x" (VStr " 4.2e1 ") (VNum (num_of_Z 42)));
    try reflexivity; discriminate.
Defined.

(** X21: for a condition on object 'any' or 'all', whether it is defined
    and whether it holds do not depend on the order in which the entity set
    is enumerated. *)
Theorem fan_out_truth_is_order_independent this objs objs' conditionValue condition :
  Permutation objs objs' ->
  Condition.object condition = "any" \/ Condition.object condition = "all" ->
  snd (evaluate (with_compositionObjs this objs) conditionValue condition) =
  snd (evaluate (with_compositionObjs this objs') conditionValue condition) /\
  truthy (fst (evaluate (with_compositionObjs this objs) conditionValue condition)) =
  truthy (fst (evaluate (with_compositionObjs this objs') conditionValue condition)).
Proof.
  intros Hperm [Hobj|Hobj]; unfold evaluate; rewrite Hobj;
    cbn [String.eqb Ascii.eqb Bool.eqb compositionObjs with_compositionObjs]; cbv iota.
  - rewrite !fold_any_defined by (intros _; reflexivity).
    rewrite !fold_any_truthy. cbn [fst snd truthy orb].
    split; [f_equal; exact (forallb_Permutation (fails_on this condition) _ _ Hperm)
           | exact (existsb_Permutation (member_truthy false this condition) _ _ Hperm)].
  - rewrite !fold_all_defined by (intros _; reflexivity).
    rewrite !fold_all_truthy. cbn [fst snd truthy andb orb].
    split; [f_equal; exact (forallb_Permutation (fails_on this condition) _ _ Hperm)
           | exact (forallb_Permutation (member_truthy true this condition) _ _ Hperm)].
Qed.

Lemma fan_out_truth_is_order_independent_witness :
  Permutation ["A"; "B"] ["B"; "A"] /\
  (Condition.object (on_x "any" "greaterThan" [VNum (num_of_Z 7)]) = "any" \/
   Condition.object (on_x "any" "greaterThan" [VNum (num_of_Z 7)]) = "all") /\
  truthy (fst (evaluate (with_compositionObjs evaluator_AB ["A"; "B"]) VUndefined
                 (on_x "any" "greaterThan" [VNum (num_of_Z 7)]))) =
  truthy (fst (evaluate (with_compositionObjs evaluator_AB ["B"; "A"]) VUndefined
                 (on_x "any" "greaterThan" [VNum (num_of_Z 7)]))).
Proof.
  split; [apply perm_swap|]. split; [left; reflexivity|].
  apply (fan_out_truth_is_order_independent evaluator_AB ["A"; "B"] ["B"; "A"] VUndefined
           (on_x "any" "greaterThan" [VNum (num_of_Z 7)]) (perm_swap _ _ _)).
  left; reflexivity.
Defined.
